(** * music-audio: the download-and-record service

    A shallow embedding of the Express handlers of the repository and of
    the helper [secondsToHms], with the properties of the download
    pipeline stated over it.

    The repository holds several snapshots of the same server:
    - [src/app.js]                          (yt-dlp through [exec]),   module [AppJs];
    - [src/unnamed/part_000]                (play-dl streams),         module [PlayDl];
    - [src/unnamed/part_001]                (ytdl-core streams),       module [Ytdl];
    - [src/.history/app_20250824145517.js]  (play-dl, guarded replies), module [Hist].

    The collaborators (file system, MongoDB through mongoose, the external
    downloader, the clock) are modelled by explicit state and by an
    environment record that fixes what they answer during one request. *)

From Stdlib Require Import Ascii QArith Qround Lqa Sorted Permutation.
From stdpp Require Import gmap strings list fin_maps pretty.

Open Scope string_scope.

(** ** JavaScript values and numbers *)

Module Js.

(** A JavaScript number: a finite value, NaN, or an infinity.  Finite
    values are rationals and arithmetic on them is exact: the rounding of
    doubles is not modelled (the operations of [secondsToHms] lose nothing
    on doubles below 2^53), and there is no negative zero, which prints
    as [0] like zero does. *)
Inductive number : Type :=
  | Fin (q : Q)
  | NaN
  | Inf (negative : bool).

Inductive value : Type :=
  | VUndefined
  | VNull
  | VBool (b : bool)
  | VNum (n : number)
  | VStr (s : string).

Definition str_truthy (s : string) : bool :=
  match s with EmptyString => false | String _ _ => true end.

Definition num_truthy (n : number) : bool :=
  match n with
  | Fin q => negb (Qeq_bool q 0)
  | NaN => false
  | Inf _ => true
  end.

(** ToBoolean. *)
Definition truthy (v : value) : bool :=
  match v with
  | VUndefined | VNull => false
  | VBool b => b
  | VNum n => num_truthy n
  | VStr s => str_truthy s
  end.

(** A request-body field is modelled when it is a string or absent; an
    absent field reads as [undefined]. *)
Definition field (o : option string) : value :=
  match o with Some s => VStr s | None => VUndefined end.

(** [a || b]. *)
Definition or (a b : value) : value := if truthy a then a else b.

(** [x || y] on strings that may be absent. *)
Definition str_or (o : option string) (d : string) : string :=
  match o with
  | Some s => if str_truthy s then s else d
  | None => d
  end.

Definition Qtrunc (q : Q) : Z :=
  if Qle_bool 0 q then Qfloor q else Qceiling q.

(** [a / b]. *)
Definition num_div (a b : number) : number :=
  match a, b with
  | NaN, _ | _, NaN => NaN
  | Inf _, Inf _ => NaN
  | Inf s, Fin d => Inf (xorb s (negb (Qle_bool 0 d)))
  | Fin _, Inf _ => Fin 0
  | Fin n, Fin d =>
      if Qeq_bool d 0
      then (if Qeq_bool n 0 then NaN else Inf (negb (Qle_bool 0 n)))
      else Fin (n / d)
  end.

(** [a % b]: the remainder takes the sign of the dividend. *)
Definition num_rem (a b : number) : number :=
  match a, b with
  | NaN, _ | _, NaN => NaN
  | Inf _, _ => NaN
  | Fin n, Inf _ => Fin n
  | Fin n, Fin d =>
      if Qeq_bool d 0 then NaN
      else Fin (n - d * inject_Z (Qtrunc (n / d)))
  end.

(** The result of [Math.floor]: an integer, NaN or an infinity. *)
Inductive integral : Type :=
  | IFin (z : Z)
  | INaN
  | IInf (negative : bool).

Definition floor (a : number) : integral :=
  match a with
  | Fin q => IFin (Qfloor q)
  | NaN => INaN
  | Inf s => IInf s
  end.

(** [h > 0]. *)
Definition gt0 (a : integral) : bool :=
  match a with
  | IFin z => bool_decide (0 < z)%Z
  | INaN => false
  | IInf s => negb s
  end.

Fixpoint repeat_to (fill cur : string) (n : nat) : string :=
  match n with
  | O => ""
  | S n' =>
      match cur with
      | String c rest => String c (repeat_to fill rest n')
      | EmptyString =>
          match fill with
          | String c rest => String c (repeat_to fill rest n')
          | EmptyString => ""
          end
      end
  end.

(** [s.padStart(target, fill)]. *)
Definition padStart (s : string) (target : nat) (fill : string) : string :=
  let len := String.length s in
  if (target <=? len)%nat then s
  else if negb (str_truthy fill) then s
  else repeat_to fill fill (target - len) ++ s.

(** What the JavaScript runtime supplies and the repository does not
    contain: the conversion of a string to a number, the rendering of an
    integer of magnitude at least 10^21 (written with an exponent) and the
    rendering of a number that is not an integer. *)
Record runtime : Type := {
  StringToNumber : string -> number;
  ExponentString : Z -> string;
  FractionString : Q -> string
}.

Section Runtime.

Context (rt : runtime).

(** [Number(v)]. *)
Definition Number (v : value) : number :=
  match v with
  | VUndefined => NaN
  | VNull => Fin 0
  | VBool b => if b then Fin 1 else Fin 0
  | VNum n => n
  | VStr s => StringToNumber rt s
  end.

(** [String(n)] and [`${n}`] for the result of [Math.floor]. *)
Definition String_of (a : integral) : string :=
  match a with
  | IFin z =>
      if bool_decide (Z.abs z < 10 ^ 21)%Z then pretty z
      else ExponentString rt z
  | INaN => "NaN"
  | IInf false => "Infinity"
  | IInf true => "-Infinity"
  end.

(** [n.toString()] for any number. *)
Definition toString (n : number) : string :=
  match n with
  | Fin q =>
      if Qeq_bool (inject_Z (Qfloor q)) q then String_of (IFin (Qfloor q))
      else FractionString rt q
  | NaN => String_of INaN
  | Inf s => String_of (IInf s)
  end.

(** [x || 0] on numbers. *)
Definition num_or0 (n : number) : number :=
  if num_truthy n then n else Fin 0.

(** part_000 lines 146-154 (the same text is in
    .history/app_20250824145517.js lines 146-154). *)
Definition secondsToHms (seconds : value) : string :=
  let seconds := num_or0 (Number seconds) in
  let h := floor (num_div seconds (Fin 3600)) in
  let m := floor (num_div (num_rem seconds (Fin 3600)) (Fin 60)) in
  let s := floor (num_rem seconds (Fin 60)) in
  if gt0 h
  then String_of h ++ ":" ++ padStart (String_of m) 2 "0" ++ ":"
         ++ padStart (String_of s) 2 "0"
  else String_of m ++ ":" ++ padStart (String_of s) 2 "0".

(** part_001 lines 297-303: the arrow function [formatDuration]; its
    argument is coerced by each arithmetic operator and the seconds are
    not floored. *)
Definition formatDuration (seconds : value) : string :=
  let hrs := floor (num_div (Number seconds) (Fin 3600)) in
  let mins := floor (num_div (num_rem (Number seconds) (Fin 3600)) (Fin 60)) in
  let secs := num_rem (Number seconds) (Fin 60) in
  if gt0 hrs
  then String_of hrs ++ ":" ++ padStart (String_of mins) 2 "0" ++ ":"
         ++ padStart (toString secs) 2 "0"
  else String_of mins ++ ":" ++ padStart (toString secs) 2 "0".

End Runtime.

End Js.

(** ** Responses *)

#[local] Unset Elimination Schemes.
Inductive json : Type :=
  | JNull
  | JBool (b : bool)
  | JNum (n : Z)
  | JStr (s : string)
  | JArr (items : list json)
  | JObj (fields : list (string * json)).
#[local] Set Elimination Schemes.

Record response : Type := mkResponse { status : nat; body : json }.

(** What a handler did with [res]: it sent a reply, or an exception (or a
    rejected promise) left the handler before any reply was sent. *)
Inductive outcome : Type :=
  | Replied (r : response)
  | Escaped.

(** [res.status(c).json({ error: msg })]. *)
Definition error_reply (c : nat) (msg : string) : outcome :=
  Replied (mkResponse c (JObj [("error", JStr msg)])).

(** The key [k] occurs as a field name somewhere in the JSON text. *)
Fixpoint has_key (k : string) (j : json) : bool :=
  match j with
  | JArr items => existsb (has_key k) items
  | JObj fields =>
      existsb (fun p => String.eqb (fst p) k || has_key k (snd p)) fields
  | _ => false
  end.

(** ** The file system: path to size in bytes *)

Module Fs.

Definition existsSync (fs : gmap string N) (p : string) : bool :=
  bool_decide (is_Some (fs !! p)).

(** [fs.statSync(p).size]; [None] when it throws (no such file). *)
Definition statSync (fs : gmap string N) (p : string) : option N := fs !! p.

(** [fs.unlinkSync(p)]; [None] when it throws: the file is not there, or
    the system refuses ([denied]). *)
Definition unlinkSync (denied : bool) (fs : gmap string N) (p : string)
  : option (gmap string N) :=
  if denied then None
  else if existsSync fs p then Some (delete p fs) else None.

(** [path.join(dir, name)] for a normalized [dir] and a [name] without
    separators. *)
Definition join (dir name : string) : string := dir ++ "/" ++ name.

End Fs.

(** ** The mongoose model [Download] *)

Module Mongoose.

(** The content of an optional string path of a document: never set,
    set to [null], or a string. *)
Inductive path_value : Type :=
  | Unset
  | Null
  | Text (s : string).

Record Download : Type := mkDownload {
  _id : string;
  title : string;
  url : string;
  fileName : string;
  fileType : string;
  downloadDate : Z;
  filePath : string;
  fileSize : N;
  duration : path_value;
  thumbnail : path_value
}.

(** [enum: ['audio', 'video']]. *)
Definition in_enum (t : string) : bool :=
  String.eqb t "audio" || String.eqb t "video".

(** The schema of src/app.js (lines 28-36): only the enum is checked. *)
Definition valid_app (d : Download) : bool := in_enum (fileType d).

(** The schema of the other snapshots: [required: true] on five string
    paths, which rejects the empty string, and the enum. *)
Definition valid_required (d : Download) : bool :=
  Js.str_truthy (title d) && Js.str_truthy (url d)
  && Js.str_truthy (fileName d) && Js.str_truthy (fileType d)
  && in_enum (fileType d) && Js.str_truthy (filePath d).

(** [await doc.save()]: [None] when the promise rejects (validation
    fails, the store refuses the write, or the [_id] is taken). *)
Definition save (refused : bool) (valid : Download -> bool) (d : Download)
    (db : gmap string Download) : option (gmap string Download) :=
  if negb (valid d) then None
  else if refused then None
  else match db !! _id d with
       | Some _ => None
       | None => Some (<[_id d := d]> db)
       end.

(** [await Download.findById(id)]: [None] when the promise rejects (the
    store is unreachable or [id] does not cast to an ObjectId). *)
Definition findById (refused : bool) (db : gmap string Download) (id : string)
  : option (option Download) :=
  if refused then None else Some (db !! id).

(** [await Download.findByIdAndDelete(id)]. *)
Definition findByIdAndDelete (refused : bool) (db : gmap string Download)
    (id : string) : option (gmap string Download) :=
  if refused then None else Some (delete id db).

Fixpoint insert_newest (d : Download) (l : list Download) : list Download :=
  match l with
  | [] => [d]
  | x :: rest =>
      if (downloadDate x <=? downloadDate d)%Z then d :: l
      else x :: insert_newest d rest
  end.

(** [Download.find({}).sort({ downloadDate: -1 })]. *)
Definition find_sorted (db : gmap string Download) : list Download :=
  foldr insert_newest [] (snd <$> map_to_list db).

Definition optional (k : string) (v : path_value) : list (string * json) :=
  match v with
  | Unset => []
  | Null => [(k, JNull)]
  | Text s => [(k, JStr s)]
  end.

(** [x || null] and [x?.url] for a string that may be absent. *)
Definition or_null (o : option string) : path_value :=
  match o with
  | Some s => if Js.str_truthy s then Text s else Null
  | None => Null
  end.

Definition or_unset (o : option string) : path_value :=
  match o with Some s => Text s | None => Unset end.

(** The fields of a document as [res.json] writes them (the date as its
    time value). *)
Definition toJSON (d : Download) : list (string * json) :=
  [("_id", JStr (_id d)); ("title", JStr (title d)); ("url", JStr (url d));
   ("fileName", JStr (fileName d)); ("fileType", JStr (fileType d));
   ("downloadDate", JNum (downloadDate d)); ("filePath", JStr (filePath d));
   ("fileSize", JNum (Z.of_N (fileSize d)))]
  ++ optional "duration" (duration d) ++ optional "thumbnail" (thumbnail d)
  ++ [("__v", JNum 0)].

(** [.select('-filePath')]: the projection that leaves one path out. *)
Definition select_minus (k : string) (fields : list (string * json))
  : list (string * json) :=
  filter (fun p => fst p <> k) fields.

End Mongoose.

(** The state shared by all requests: the download directory and the
    collection. *)
Record World : Type := mkWorld {
  fs : gmap string N;
  db : gmap string Mongoose.Download
}.

(** Process-wide constants: [PORT] (as text) and the download directory. *)
Record Config : Type := mkConfig { PORT : string; DOWNLOAD_DIR : string }.

(** The double-quote character of the shell command lines. *)
Definition dq : string := String (Ascii.ascii_of_nat 34) "".

(** [`${x}`] for a body field. *)
Definition text (o : option string) : string :=
  match o with Some s => s | None => "undefined" end.

(** [type === 'audio'] for a body field. *)
Definition is_audio (type : option string) : bool :=
  match type with Some t => String.eqb t "audio" | None => false end.

(** [!x] for a body field. *)
Definition missing (o : option string) : bool := negb (Js.truthy (Js.field o)).

(** ** src/app.js *)

Module AppJs.

(** What [exec(cmd, callback)] hands to its callback, and the download
    directory as the child process left it. *)
Record ExecResult : Type := mkExec {
  exec_error : bool;
  exec_stdout : string;
  exec_stderr : string;
  exec_fs : gmap string N
}.

(** What the collaborators answer during one request. *)
Record Env : Type := mkEnv {
  now : Z;                                       (* Date.now(), line 56 *)
  ytdlp : string -> gmap string N -> ExecResult; (* the child process *)
  new_id : string;                               (* the _id of new Download *)
  created : Z;                                   (* default: Date.now *)
  save_refused : bool;
  find_refused : bool
}.

Section Handlers.

Context (cfg : Config).

Definition db_failed : outcome :=
  error_reply 500 "File saved but DB insert failed".

(** Lines 55-57: [ext], [filename] and [filepath]. *)
Definition filename (e : Env) (type : option string) : string :=
  let ext := if is_audio type then "mp3" else "mp4" in
  "video_" ++ pretty (now e) ++ "." ++ ext.

Definition filepath (e : Env) (type : option string) : string :=
  Fs.join (DOWNLOAD_DIR cfg) (filename e type).

(** Lines 60-63: the yt-dlp command line. *)
Definition cmd (e : Env) (url type : option string) : string :=
  if is_audio type
  then "yt-dlp -x --audio-format mp3 -o " ++ dq ++ filepath e type ++ dq
         ++ " " ++ dq ++ text url ++ dq
  else "yt-dlp -f best -o " ++ dq ++ filepath e type ++ dq
         ++ " " ++ dq ++ text url ++ dq.

(** Lines 74-81: the document, given the size [statSync] read. *)
Definition newDownload (e : Env) (url type : option string) (size : N)
  : Mongoose.Download :=
  Mongoose.mkDownload (new_id e) (filename e type) (text url)
    (filename e type) (text type) (created e) (filepath e type) size
    Mongoose.Unset Mongoose.Unset.

(** POST /download, lines 48-98.  The third component lists the command
    lines passed to [exec]. *)
Definition post_download (e : Env) (url type : option string) (w : World)
  : outcome * World * list string :=
  if missing url || missing type
  then (error_reply 400 "url and type required", w, [])
  else
    let filename := filename e type in
    let filepath := filepath e type in
    let cmd := cmd e url type in
    let r := ytdlp e cmd (fs w) in
    let w1 := mkWorld (exec_fs r) (db w) in
    if exec_error r
    then (Replied (mkResponse 500
            (JObj [("error", JStr "Download failed");
                   ("details", JStr (exec_stderr r))])), w1, [cmd])
    else
      match Fs.statSync (fs w1) filepath with
      | None => (db_failed, w1, [cmd])
      | Some size =>
          let newDownload := newDownload e url type size in
          match Mongoose.save (save_refused e) Mongoose.valid_app
                  newDownload (db w1) with
          | None => (db_failed, w1, [cmd])
          | Some db' =>
              (Replied (mkResponse 200
                 (JObj [("message",
                         JStr (text type ++ " downloaded successfully"));
                        ("link",
                         JStr ("http://localhost:" ++ PORT cfg
                               ++ "/downloads/" ++ filename))])),
               mkWorld (fs w1) db', [cmd])
          end
      end.

(** GET /downloads-list, lines 101-109. *)
Definition get_downloads_list (e : Env) (w : World) : outcome :=
  if find_refused e then error_reply 500 "Database error"
  else Replied (mkResponse 200
         (JArr ((fun d => JObj (Mongoose.toJSON d))
                  <$> Mongoose.find_sorted (db w)))).

End Handlers.

End AppJs.

(** ** What the stream-based snapshots share *)

Module Lib.

(** Characters are code units below 256. *)
Definition is_word (c : ascii) : bool :=
  let n := nat_of_ascii c in
  (((48 <=? n) && (n <=? 57)) || ((65 <=? n) && (n <=? 90))
   || ((97 <=? n) && (n <=? 122)) || (n =? 95))%nat.

Definition is_space (c : ascii) : bool :=
  let n := nat_of_ascii c in
  (((9 <=? n) && (n <=? 13)) || (n =? 32) || (n =? 160))%nat.

Fixpoint keep (f : ascii -> bool) (s : string) : string :=
  match s with
  | EmptyString => ""
  | String c rest => if f c then String c (keep f rest) else keep f rest
  end.

Fixpoint trimStart (s : string) : string :=
  match s with
  | EmptyString => ""
  | String c rest => if is_space c then trimStart rest else s
  end.

Definition trim (s : string) : string :=
  String.rev (trimStart (String.rev (trimStart s))).

(** [t.replace(/[^\w\s-]/g, '').trim()]. *)
Definition sanitize (t : string) : string :=
  trim (keep (fun c => is_word c || is_space c || (nat_of_ascii c =? 45)%nat) t).

(** The part of [video_details] / [videoDetails] the handlers read. *)
Record Details : Type := mkDetails {
  vd_title : option string;
  vd_seconds : Js.value;         (* durationInSec, lengthSeconds *)
  vd_duration : Js.value;        (* duration, read by .history only *)
  vd_durationRaw : option string;
  vd_thumbnail : option string   (* thumbnails[0].url *)
}.

(** How piping the media stream into the write stream ended, with the
    size of what was written at the destination when a file is there.
    [fs.createWriteStream] returns before the file is open: the open goes
    on in the background.  [SourceError None] is an error of the source
    that arrives while the open is still pending, [WriteError None] a
    failure of the open itself. *)
Inductive Transfer : Type :=
  | Finished (size : N)                 (* 'finish' on the write stream *)
  | SourceError (written : option N) (message : string)
  | WriteError (written : option N) (message : string).

(** What [play.stream] answers. *)
Inductive StreamAnswer : Type :=
  | Rejects (message : string)
  | Resolves (usable : bool).

(** What the collaborators answer during one request. *)
Record Env : Type := mkEnv {
  now : Z;                           (* Date.now() in the file name *)
  url_valid : bool;                  (* ytdl.validateURL, play.yt_validate *)
  video_info : string + Details;     (* inl: rejects with that message *)
  stream : StreamAnswer;
  stream_from_info : StreamAnswer;
  transfer : Transfer;
  new_id : string;
  created : Z;
  save_refused : bool;
  find_refused : bool;
  delete_refused : bool;
  unlink_denied : bool;
  type_error : string   (* the message of the TypeError raised on reading
                           a property of [undefined] *)
}.

(** The directory as the 'finish' or 'error' listener finds it when the
    pipe has ended. *)
Definition written_fs (fs : gmap string N) (p : string) (t : Transfer)
  : gmap string N :=
  match t with
  | Finished n => <[p := n]> fs
  | SourceError (Some n) _ | WriteError (Some n) _ => <[p := n]> fs
  | SourceError None _ | WriteError None _ => fs
  end.

(** What the open of [fs.createWriteStream(p)] leaves when nothing is
    written to the stream: the file [p], created or emptied. *)
Definition opened_fs (fs : gmap string N) (p : string) : gmap string N :=
  <[p := 0%N]> fs.

(** The directory once the pending open has completed, [fs] being what
    the listeners left.  After an error of the source that came before
    the file was open, the open still completes and leaves [p] empty,
    whatever the listener has found or removed. *)
Definition settled_fs (fs : gmap string N) (p : string) (t : Transfer)
  : gmap string N :=
  match t with
  | SourceError None _ => opened_fs fs p
  | _ => fs
  end.

(** [if (fs.existsSync(p)) fs.unlinkSync(p)]; [None] when unlink throws. *)
Definition unlink_if_exists (denied : bool) (fs : gmap string N) (p : string)
  : option (gmap string N) :=
  if Fs.existsSync fs p then Fs.unlinkSync denied fs p else Some fs.

(** [try { if (fs.existsSync(p)) fs.unlinkSync(p); } catch (_) {}]. *)
Definition unlink_quietly (denied : bool) (fs : gmap string N) (p : string)
  : gmap string N :=
  match unlink_if_exists denied fs p with Some fs' => fs' | None => fs end.

Definition not_found : outcome := error_reply 404 "Download not found".

Definition deleted : outcome :=
  Replied (mkResponse 200
    (JObj [("success", JBool true);
           ("message", JStr "Download deleted successfully")])).

(** [res.json(downloads)] after [.select('-filePath')]. *)
Definition listing (db : gmap string Mongoose.Download) : outcome :=
  Replied (mkResponse 200
    (JArr ((fun d => JObj (Mongoose.select_minus "filePath" (Mongoose.toJSON d)))
             <$> Mongoose.find_sorted db))).

(** GET /downloads with [.select('-filePath')]; [caught] is what a
    rejected query becomes. *)
Definition get_downloads (caught : outcome) (e : Env) (w : World) : outcome :=
  if find_refused e then caught else listing (db w).

(** GET /download/:id. *)
Definition get_download (caught : outcome) (e : Env) (id : string) (w : World)
  : outcome :=
  match Mongoose.findById (find_refused e) (db w) id with
  | None => caught
  | Some None => not_found
  | Some (Some download) =>
      Replied (mkResponse 200 (JObj (Mongoose.toJSON download)))
  end.

(** DELETE /download/:id. *)
Definition delete_download (caught : outcome) (e : Env) (id : string)
    (w : World) : outcome * World :=
  match Mongoose.findById (find_refused e) (db w) id with
  | None => (caught, w)
  | Some None => (not_found, w)
  | Some (Some download) =>
      match unlink_if_exists (unlink_denied e) (fs w)
              (Mongoose.filePath download) with
      | None => (caught, w)
      | Some fs1 =>
          match Mongoose.findByIdAndDelete (delete_refused e) (db w) id with
          | None => (caught, mkWorld fs1 (db w))
          | Some db1 => (deleted, mkWorld fs1 db1)
          end
      end
  end.

(** The value a string path of a new document receives from a body
    field; [required] rejects the absent and the empty value alike. *)
Definition stored (o : option string) : string :=
  match o with Some s => s | None => "" end.

(** [fileExt] and [fileName] of the stream-based snapshots. *)
Definition ext_of (type : option string) : string :=
  if is_audio type then "mp3" else "mp4".

Definition fileName (title : string) (now : Z) (type : option string)
  : string :=
  title ++ "_" ++ pretty now ++ "." ++ ext_of type.

(** [rawTitle] and [title] of the play-dl snapshots:
    [vd.title || 'video'] and the sanitized text, or [video] when nothing
    is left of it. *)
Definition rawTitle (vd : Details) : string := Js.str_or (vd_title vd) "video".

Definition title (vd : Details) : string :=
  Js.str_or (Some (sanitize (rawTitle vd))) "video".

(** [filePath]. *)
Definition filePath (cfg : Config) (title : string) (now : Z)
    (type : option string) : string :=
  Fs.join (DOWNLOAD_DIR cfg) (fileName title now type).

End Lib.

(** ** src/unnamed/part_000 (play-dl) *)

Module PlayDl.

Section Handlers.

Context (rt : Js.runtime) (cfg : Config).

Definition save_failed : outcome :=
  error_reply 500 "Download complete but DB save failed".

(** POST /download, lines 55-143. *)
Definition post_download (e : Lib.Env) (url type : option string)
    (w : World) : outcome * World :=
  if missing url || missing type
  then (error_reply 400 "Missing url or type", w)
  else
    match Lib.video_info e with
    | inl _ => (error_reply 400 "Unable to fetch video info. Check URL.", w)
    | inr vd =>
        let rawTitle := Lib.rawTitle vd in
        let title := Lib.title vd in
        let durationSec := Js.or (Lib.vd_seconds vd) (Js.VNum (Js.Fin 0)) in
        let durationRaw := Lib.vd_durationRaw vd in
        let thumbnail := Mongoose.or_null (Lib.vd_thumbnail vd) in
        let fileName := Lib.fileName title (Lib.now e) type in
        let filePath := Lib.filePath cfg title (Lib.now e) type in
        let streamInfo :=
          match Lib.stream e with
          | Lib.Rejects _ => Lib.stream_from_info e
          | answer => answer
          end in
        match streamInfo with
        | Lib.Rejects _ => (error_reply 500 "Failed to get media stream", w)
        | Lib.Resolves false => (error_reply 500 "Invalid stream", w)
        | Lib.Resolves true =>
            let fs1 := Lib.written_fs (fs w) filePath (Lib.transfer e) in
            match Lib.transfer e with
            | Lib.Finished _ =>
                match Fs.statSync fs1 filePath with
                | None => (save_failed, mkWorld fs1 (db w))
                | Some size =>
                    let download :=
                      Mongoose.mkDownload (Lib.new_id e) rawTitle (text url)
                        fileName (text type) (Lib.created e) filePath size
                        (Mongoose.Text
                           (Js.str_or durationRaw
                              (Js.secondsToHms rt durationSec)))
                        thumbnail in
                    match Mongoose.save (Lib.save_refused e)
                            Mongoose.valid_required download (db w) with
                    | None => (save_failed, mkWorld fs1 (db w))
                    | Some db' =>
                        (Replied (mkResponse 200
                           (JObj [("success", JBool true);
                                  ("message",
                                   JStr (text type
                                         ++ " downloaded successfully"));
                                  ("fileName", JStr fileName);
                                  ("title", JStr rawTitle)])),
                         mkWorld fs1 db')
                    end
                end
            | Lib.WriteError _ _ =>
                match Lib.unlink_if_exists (Lib.unlink_denied e) fs1
                        filePath with
                | None => (Escaped, mkWorld fs1 (db w))
                | Some fs2 =>
                    (error_reply 500 "File write failed", mkWorld fs2 (db w))
                end
            | Lib.SourceError _ _ =>
                (* no 'error' listener on the source stream *)
                (Escaped,
                 mkWorld (Lib.settled_fs fs1 filePath (Lib.transfer e))
                   (db w))
            end
        end
    end.

(** GET /downloads (lines 157-160), GET /download/:id (162-166) and
    DELETE /download/:id (168-178): no try/catch around the awaits. *)
Definition get_downloads := Lib.get_downloads Escaped.
Definition get_download := Lib.get_download Escaped.
Definition delete_download := Lib.delete_download Escaped.

End Handlers.

End PlayDl.

(** ** src/unnamed/part_001 (ytdl-core) *)

Module Ytdl.

Section Handlers.

Context (rt : Js.runtime) (cfg : Config).

Definition save_failed : outcome :=
  error_reply 500 "Download completed but database save failed".

Definition server_error (message : string) : outcome :=
  error_reply 500 ("Server error: " ++ message).

(** POST /download, lines 281-374. *)
Definition post_download (e : Lib.Env) (url type : option string)
    (w : World) : outcome * World :=
  if negb (Lib.url_valid e)
  then (error_reply 400 "Invalid YouTube URL", w)
  else
    match Lib.video_info e with
    | inl message => (server_error message, w)
    | inr info =>
        match Lib.vd_title info with
        | None => (server_error (Lib.type_error e), w)
        | Some rawTitle =>
            let title := Lib.sanitize rawTitle in
            let duration := Lib.vd_seconds info in
            let thumbnail := Mongoose.or_unset (Lib.vd_thumbnail info) in
            let fileName := Lib.fileName title (Lib.now e) type in
            let filePath := Lib.filePath cfg title (Lib.now e) type in
            let fs1 := Lib.written_fs (fs w) filePath (Lib.transfer e) in
            match Lib.transfer e with
            | Lib.Finished _ =>
                match Fs.statSync fs1 filePath with
                | None => (save_failed, mkWorld fs1 (db w))
                | Some size =>
                    let download :=
                      Mongoose.mkDownload (Lib.new_id e) rawTitle
                        (Lib.stored url) fileName (Lib.stored type)
                        (Lib.created e) filePath size
                        (Mongoose.Text (Js.formatDuration rt duration))
                        thumbnail in
                    match Mongoose.save (Lib.save_refused e)
                            Mongoose.valid_required download (db w) with
                    | None => (save_failed, mkWorld fs1 (db w))
                    | Some db' =>
                        (Replied (mkResponse 200
                           (JObj [("success", JBool true);
                                  ("message",
                                   JStr ((if is_audio type then "Audio"
                                          else "Video")
                                         ++ " downloaded successfully!"));
                                  ("fileName", JStr fileName);
                                  ("title", JStr rawTitle)])),
                         mkWorld fs1 db')
                    end
                end
            | Lib.SourceError _ message =>
                match Lib.unlink_if_exists (Lib.unlink_denied e) fs1
                        filePath with
                | None =>
                    (Escaped,
                     mkWorld (Lib.settled_fs fs1 filePath (Lib.transfer e))
                       (db w))
                | Some fs2 =>
                    (error_reply 500 ("Download failed: " ++ message),
                     mkWorld (Lib.settled_fs fs2 filePath (Lib.transfer e))
                       (db w))
                end
            | Lib.WriteError _ message =>
                match Lib.unlink_if_exists (Lib.unlink_denied e) fs1
                        filePath with
                | None => (Escaped, mkWorld fs1 (db w))
                | Some fs2 =>
                    (error_reply 500 ("File write failed: " ++ message),
                     mkWorld fs2 (db w))
                end
            end
        end
    end.

(** GET /downloads (lines 377-388), GET /download/:id (391-401) and
    DELETE /download/:id (404-423), each inside try/catch. *)
Definition get_downloads := Lib.get_downloads (error_reply 500 "Database error").
Definition get_download := Lib.get_download (error_reply 500 "Database error").
Definition delete_download := Lib.delete_download (error_reply 500 "Delete failed").

End Handlers.

End Ytdl.

(** ** src/.history/app_20250824145517.js (play-dl, guarded replies) *)

Module Hist.

Section Handlers.

Context (rt : Js.runtime) (cfg : Config).

Definition save_failed : outcome :=
  error_reply 500 "Download complete but DB save failed".

Definition server_error (message : string) : outcome :=
  error_reply 500 ("Server error: " ++ message).

(** POST /download, lines 59-143. *)
Definition post_download (e : Lib.Env) (url type : option string)
    (w : World) : outcome * World :=
  if missing url || missing type
  then (error_reply 400 "Missing url or type", w)
  else if negb (Lib.url_valid e)
  then (error_reply 400 "Invalid YouTube URL", w)
  else
    match Lib.video_info e with
    | inl message => (server_error message, w)
    | inr vd =>
        let rawTitle := Lib.rawTitle vd in
        let title := Lib.title vd in
        let durationSec :=
          Js.or (Js.or (Lib.vd_seconds vd) (Lib.vd_duration vd))
            (Js.VNum (Js.Fin 0)) in
        let durationRaw := Lib.vd_durationRaw vd in
        let thumbnail :=
          match Lib.vd_thumbnail vd with
          | Some u => Mongoose.Text u
          | None => Mongoose.Null
          end in
        let fileName := Lib.fileName title (Lib.now e) type in
        let filePath := Lib.filePath cfg title (Lib.now e) type in
        match Lib.stream e with
        | Lib.Rejects message => (server_error message, w)
        | Lib.Resolves false =>
            (* the answer has no [stream]: line 88 has called
               [fs.createWriteStream] when line 92 throws *)
            (server_error (Lib.type_error e),
             mkWorld (Lib.opened_fs (fs w) filePath) (db w))
        | Lib.Resolves true =>
            let fs1 := Lib.written_fs (fs w) filePath (Lib.transfer e) in
            match Lib.transfer e with
            | Lib.SourceError _ message =>
                (error_reply 500 ("Stream error: " ++ message),
                 mkWorld
                   (Lib.settled_fs
                      (Lib.unlink_quietly (Lib.unlink_denied e) fs1 filePath)
                      filePath (Lib.transfer e))
                   (db w))
            | Lib.WriteError _ message =>
                (error_reply 500 ("File write failed: " ++ message),
                 mkWorld (Lib.unlink_quietly (Lib.unlink_denied e) fs1 filePath)
                   (db w))
            | Lib.Finished _ =>
                let caught :=
                  (save_failed,
                   mkWorld
                     (Lib.unlink_quietly (Lib.unlink_denied e) fs1 filePath)
                     (db w)) in
                match Fs.statSync fs1 filePath with
                | None => caught
                | Some size =>
                    let download :=
                      Mongoose.mkDownload (Lib.new_id e) rawTitle (text url)
                        fileName (text type) (Lib.created e) filePath size
                        (Mongoose.Text
                           (Js.str_or durationRaw
                              (Js.secondsToHms rt durationSec)))
                        thumbnail in
                    match Mongoose.save (Lib.save_refused e)
                            Mongoose.valid_required download (db w) with
                    | None => caught
                    | Some db' =>
                        (Replied (mkResponse 200
                           (JObj [("success", JBool true);
                                  ("message",
                                   JStr ((if is_audio type then "Audio"
                                          else "Video")
                                         ++ " downloaded successfully!"));
                                  ("fileName", JStr fileName);
                                  ("title", JStr rawTitle)])),
                         mkWorld fs1 db')
                    end
                end
            end
        end
    end.

(** GET /downloads (lines 157-165), GET /download/:id (168-177) and
    DELETE /download/:id (180-195), each inside try/catch. *)
Definition get_downloads := Lib.get_downloads (error_reply 500 "Database error").
Definition get_download := Lib.get_download (error_reply 500 "Database error").
Definition delete_download := Lib.delete_download (error_reply 500 "Delete failed").

End Handlers.

End Hist.

(** ** Definitions that follow the specification's words *)

(** A component zero-padded to two digits. *)
Definition two_digits (k : Z) : string :=
  pretty (k / 10)%Z ++ pretty (k mod 10)%Z.

(** The text [s] ends in [suffix]. *)
Definition ends_in (suffix s : string) : Prop :=
  exists prefix : string, s = prefix ++ suffix.

(** The character [c] occurs in [s]. *)
Fixpoint occurs (c : ascii) (s : string) : bool :=
  match s with
  | EmptyString => false
  | String a rest => Ascii.eqb a c || occurs c rest
  end.

(** ** Concrete collaborators *)

Module Fixtures.

Definition rt0 : Js.runtime :=
  {| Js.StringToNumber := fun _ => Js.NaN;
     Js.ExponentString := fun _ => "";
     Js.FractionString := fun _ => "" |}.

Definition cfg0 : Config := mkConfig "3000" "/srv/app/downloads".

Definition w0 : World := mkWorld ∅ ∅.

Definition song_url : option string := Some "https://example.com/watch?v=abc".

(** A child process that writes [n] bytes at [p], prints a title and
    exits with status 0. *)
Definition writes (p : string) (n : N) (cmd : string) (fs : gmap string N)
  : AppJs.ExecResult :=
  AppJs.mkExec false "Test Song" "" (<[p := n]> fs).

(** A child process that leaves [n] bytes at [p] and exits with an error. *)
Definition breaks (p : string) (n : N) (cmd : string) (fs : gmap string N)
  : AppJs.ExecResult :=
  AppJs.mkExec true "" "ERROR: unable to download video data" (<[p := n]> fs).

(** A child process that exits with status 0 and writes nothing. *)
Definition idles (cmd : string) (fs : gmap string N) : AppJs.ExecResult :=
  AppJs.mkExec false "" "" fs.

Definition mp3_path : string := "/srv/app/downloads/video_1700000000000.mp3".
Definition mp4_path : string := "/srv/app/downloads/video_1700000000000.mp4".

Definition app_env (run : string -> gmap string N -> AppJs.ExecResult)
    (id : string) (refused : bool) : AppJs.Env :=
  AppJs.mkEnv 1700000000000 run id 1700000000900 refused false.

Definition details : Lib.Details :=
  Lib.mkDetails (Some "Test Song") (Js.VNum (Js.Fin 213)) Js.VUndefined
    (Some "3:33") None.

Definition lib_env (t : Lib.Transfer) (id : string)
    (save_refused find_refused delete_refused unlink_denied : bool) : Lib.Env :=
  Lib.mkEnv 1700000000000 true (inr details) (Lib.Resolves true)
    (Lib.Resolves true) t id 1700000000900 save_refused find_refused
    delete_refused unlink_denied "Cannot read properties of undefined".

Definition song_path : string :=
  "/srv/app/downloads/Test Song_1700000000000.mp3".

Definition song : Mongoose.Download :=
  Mongoose.mkDownload "65f0c0ffee" "Test Song"
    "https://example.com/watch?v=abc" "Test Song_1700000000000.mp3" "audio"
    1700000000900 song_path 1024 (Mongoose.Text "3:33") Mongoose.Null.

(** One record whose file is on disk. *)
Definition w1 : World := mkWorld {[song_path := 1024%N]} {["65f0c0ffee" := song]}.

(** The same record after its file has gone. *)
Definition w1_no_file : World := mkWorld ∅ {["65f0c0ffee" := song]}.

End Fixtures.

(** ** Further definitions used by the properties below *)

(** Every character of [s] satisfies [f]. *)
Fixpoint all_chars (f : ascii -> bool) (s : string) : bool :=
  match s with
  | EmptyString => true
  | String c rest => f c && all_chars f rest
  end.

(** The character class [[\w\s-]] of the title filter. *)
Definition title_char (c : ascii) : bool :=
  Lib.is_word c || Lib.is_space c || (nat_of_ascii c =? 45)%nat.

(** The backslash, the path separator of Windows. *)
Definition backslash : ascii := Ascii.ascii_of_nat 92.

(** [s] begins with a white-space character. *)
Definition space_first (s : string) : bool :=
  match s with
  | EmptyString => false
  | String c _ => Lib.is_space c
  end.

(** [x] is listed before [y] only if it is at least as recent. *)
Definition not_older (x y : Mongoose.Download) : Prop :=
  (Mongoose.downloadDate y <= Mongoose.downloadDate x)%Z.

(** The items of a listing reply. *)
Definition items_of (o : outcome) : list json :=
  match o with
  | Replied (mkResponse _ (JArr items)) => items
  | _ => []
  end.

(** The HTTP status of an outcome, when a reply was sent. *)
Definition status_of (o : outcome) : option nat :=
  match o with
  | Replied r => Some (status r)
  | Escaped => None
  end.

(** What a POST may do to the collection: add one record under an [_id]
    that was free, together with a 200 reply, or nothing. *)
Definition stores_at_most (o : outcome) (id : string)
    (before after : gmap string Mongoose.Download) : Prop :=
  (status_of o = Some 200
   /\ exists d, before !! id = None /\ after = <[id := d]> before)
  \/ (status_of o <> Some 200 /\ after = before).

(** A record as the handlers write it: filed under its own [_id], of a
    kind of the enum, with the extension of its kind, and with the path
    of its file name in the download directory. *)
Definition record_ok (cfg : Config) (id : string) (d : Mongoose.Download)
  : Prop :=
  Mongoose._id d = id
  /\ Mongoose.in_enum (Mongoose.fileType d) = true
  /\ (Mongoose.fileType d = "audio" -> ends_in ".mp3" (Mongoose.fileName d))
  /\ (Mongoose.fileType d = "video" -> ends_in ".mp4" (Mongoose.fileName d))
  /\ Mongoose.filePath d = Fs.join (DOWNLOAD_DIR cfg) (Mongoose.fileName d).

Definition collection_ok (cfg : Config) (db : gmap string Mongoose.Download)
  : Prop :=
  forall id d, db !! id = Some d -> record_ok cfg id d.

(** What a DELETE of [id] may touch: the record of [id] and the file of
    that record; nothing when there is no such record. *)
Definition touches_only (id : string) (w after : World) : Prop :=
  (forall id', id' <> id -> db after !! id' = db w !! id')
  /\ (forall p, (forall d, db w !! id = Some d -> p <> Mongoose.filePath d) ->
                 fs after !! p = fs w !! p)
  /\ (db w !! id = None -> after = w).

Module Fixtures2.

Definition older_path : string :=
  "/srv/app/downloads/Old Tune_1600000000000.mp4".

Definition older : Mongoose.Download :=
  Mongoose.mkDownload "0a1b2c3d4e" "Old Tune"
    "https://example.com/watch?v=old" "Old Tune_1600000000000.mp4" "video"
    1600000000700 older_path 4096 (Mongoose.Text "1:02:03") Mongoose.Null.

(** Two records with their files. *)
Definition w2 : World :=
  mkWorld {[Fixtures.song_path := 1024%N; older_path := 4096%N]}
          {["65f0c0ffee" := Fixtures.song; "0a1b2c3d4e" := older]}.

Definition quiet : Lib.Env :=
  Fixtures.lib_env (Lib.Finished 1024) "65f0c0ffee" false false false false.

End Fixtures2.

(** * Properties *)

(** ** Arithmetic of [secondsToHms] *)

Lemma Qfloor_div_pos (q : Q) (k : positive) :
  Qfloor (q / inject_Z (Zpos k)) = (Qfloor q / Zpos k)%Z.
Proof.
  destruct q as [a b]. unfold Qdiv, Qinv, Qmult, Qfloor, inject_Z. simpl.
  rewrite Z.mul_1_r, Pos2Z.inj_mul, Z.div_div by lia. reflexivity.
Qed.

Lemma Qfloor_sub_Z (q : Q) (z : Z) :
  Qfloor (q - inject_Z z) = (Qfloor q - z)%Z.
Proof.
  destruct q as [a b]. unfold Qminus, Qplus, Qopp, Qfloor, inject_Z. simpl.
  rewrite Pos.mul_1_r, Z.mul_1_r.
  replace (a + - z * Zpos b)%Z with (a + (- z) * Zpos b)%Z by lia.
  rewrite Z.div_add by lia. lia.
Qed.

Lemma Qtrunc_nonneg (q : Q) : (0 <= q)%Q -> Js.Qtrunc q = Qfloor q.
Proof.
  intros H. unfold Js.Qtrunc. apply Qle_bool_iff in H. rewrite H. reflexivity.
Qed.

Lemma Qfloor_nonneg (q : Q) : (0 <= q)%Q -> (0 <= Qfloor q)%Z.
Proof. intros H. change 0%Z with (Qfloor 0). by apply Qfloor_resp_le. Qed.

(** The remainder of a non-negative number by a positive integer. *)
Lemma floor_rem_pos (y : Q) (k : positive) :
  (0 <= y)%Q ->
  exists r : Q,
    Js.num_rem (Js.Fin y) (Js.Fin (inject_Z (Zpos k))) = Js.Fin r /\
    (0 <= r)%Q /\ Qfloor r = (Qfloor y mod Zpos k)%Z.
Proof.
  intros Hy. eexists. split; [reflexivity|].
  assert (Hd : (0 <= y / inject_Z (Z.pos k))%Q).
  { apply Qle_shift_div_l; [reflexivity|]. by rewrite Qmult_0_l. }
  rewrite (Qtrunc_nonneg _ Hd), Qfloor_div_pos.
  assert (He : (y - inject_Z (Z.pos k) * inject_Z (Qfloor y `div` Z.pos k)
                == y - inject_Z (Z.pos k * (Qfloor y `div` Z.pos k)))%Q).
  { by rewrite inject_Z_mult. }
  split.
  - rewrite He.
    pose proof (Qfloor_le y) as Hf.
    assert (Hz : (Z.pos k * (Qfloor y `div` Z.pos k) <= Qfloor y)%Z).
    { apply Z.mul_div_le. lia. }
    rewrite Zle_Qle in Hz. lra.
  - rewrite (Qfloor_comp _ _ He), Qfloor_sub_Z.
    rewrite Z.mod_eq by lia. reflexivity.
Qed.

Lemma floor_div_pos (y : Q) (k : positive) :
  Js.floor (Js.num_div (Js.Fin y) (Js.Fin (inject_Z (Zpos k))))
  = Js.IFin (Qfloor y / Zpos k).
Proof.
  unfold Js.num_div. change (Qeq_bool (inject_Z (Z.pos k)) 0) with false.
  cbv iota. unfold Js.floor. by rewrite Qfloor_div_pos.
Qed.

Lemma String_of_small (rt : Js.runtime) (z : Z) :
  (Z.abs z < 10 ^ 21)%Z -> Js.String_of rt (Js.IFin z) = pretty z.
Proof. intros H. unfold Js.String_of. by rewrite bool_decide_eq_true_2. Qed.

Lemma padStart_two_digits (k : Z) :
  (0 <= k < 60)%Z -> Js.padStart (pretty k) 2 "0" = two_digits k.
Proof.
  intros Hk.
  assert (Hall : forallb
            (fun k => String.eqb (Js.padStart (pretty k) 2 "0") (two_digits k))
            (seqZ 0 60) = true) by (vm_compute; reflexivity).
  rewrite forallb_forall in Hall.
  apply String.eqb_eq, Hall, list_elem_of_In, elem_of_seqZ. lia.
Qed.

Lemma secondsToHms_fin (rt : Js.runtime) (v : Js.value) (y : Q) :
  Js.num_or0 (Js.Number rt v) = Js.Fin y ->
  (0 <= y)%Q -> (Qfloor y < 3600 * 10 ^ 21)%Z ->
  Js.secondsToHms rt v =
    if bool_decide (0 < Qfloor y / 3600)%Z
    then pretty (Qfloor y / 3600)%Z ++ ":"
           ++ two_digits ((Qfloor y mod 3600) / 60)%Z ++ ":"
           ++ two_digits (Qfloor y mod 60)%Z
    else pretty ((Qfloor y mod 3600) / 60)%Z ++ ":"
           ++ two_digits (Qfloor y mod 60)%Z.
Proof.
  intros Hv Hy Hb. unfold Js.secondsToHms. rewrite Hv.
  pose proof (Qfloor_nonneg y Hy) as Hn.
  change (Js.Fin 3600) with (Js.Fin (inject_Z (Zpos 3600))).
  change (Js.Fin 60) with (Js.Fin (inject_Z (Zpos 60))).
  rewrite floor_div_pos.
  destruct (floor_rem_pos y 3600 Hy) as (r & -> & Hr & Hfr).
  destruct (floor_rem_pos y 60 Hy) as (r' & -> & Hr' & Hfr').
  rewrite floor_div_pos, Hfr.
  change (Js.floor (Js.Fin r')) with (Js.IFin (Qfloor r')). rewrite Hfr'.
  set (n := Qfloor y) in *.
  assert (H1 : (0 <= n mod 3600 < 3600)%Z) by (apply Z.mod_pos_bound; lia).
  assert (H2 : (0 <= n mod 60 < 60)%Z) by (apply Z.mod_pos_bound; lia).
  assert (H3 : (0 <= n mod 3600 / 60 < 60)%Z).
  { split; [apply Z.div_pos; lia|apply Z.div_lt_upper_bound; lia]. }
  assert (H4 : (0 <= n / 3600 < 10 ^ 21)%Z).
  { split; [apply Z.div_pos; lia|apply Z.div_lt_upper_bound; lia]. }
  rewrite !String_of_small by lia.
  rewrite !padStart_two_digits by lia.
  unfold Js.gt0. reflexivity.
Qed.

(** C10, as amended.  For a value whose numeric conversion is a finite
    non-negative number [x] (below 2^53, the range in which the arithmetic
    of doubles is the exact one), [secondsToHms] returns [h:mm:ss] when
    [x] is at least 3600 and [m:ss] otherwise, the minutes within the hour
    and the seconds padded to two digits, with [h * 3600 + m * 60 + s] the
    integer part of [x]; a value whose conversion is NaN is treated as 0
    and gives [0:00]. *)
Theorem secondsToHms_label (rt : Js.runtime) (v : Js.value) :
  (Js.Number rt v = Js.NaN -> Js.secondsToHms rt v = "0:00") /\
  (forall x : Q,
     Js.Number rt v = Js.Fin x ->
     (0 <= x)%Q -> (x < inject_Z (2 ^ 53))%Q ->
     exists h m s : Z,
       (0 <= h)%Z /\ (0 <= m < 60)%Z /\ (0 <= s < 60)%Z /\
       (h * 3600 + m * 60 + s = Qfloor x)%Z /\
       ((3600 <= x)%Q ->
        Js.secondsToHms rt v
        = pretty h ++ ":" ++ two_digits m ++ ":" ++ two_digits s) /\
       ((x < 3600)%Q ->
        h = 0%Z /\ Js.secondsToHms rt v = pretty m ++ ":" ++ two_digits s)).
Proof.
  split.
  - intros Hv. unfold Js.secondsToHms. rewrite Hv. reflexivity.
  - intros x Hv Hx Hb.
    set (y := if Qeq_bool x 0 then 0%Q else x).
    assert (Hyx : (y == x)%Q).
    { unfold y. destruct (Qeq_bool x 0) eqn:E; [|reflexivity].
      symmetry. by apply Qeq_bool_eq. }
    assert (Hor : Js.num_or0 (Js.Number rt v) = Js.Fin y).
    { rewrite Hv. unfold Js.num_or0, Js.num_truthy, y.
      by destruct (Qeq_bool x 0). }
    assert (Hy : (0 <= y)%Q) by (by rewrite Hyx).
    pose proof (Qfloor_comp _ _ Hyx) as Hfl.
    assert (Hn : (0 <= Qfloor x)%Z) by (by apply Qfloor_nonneg).
    assert (Hlt : (Qfloor x < 3600 * 10 ^ 21)%Z).
    { apply Z.lt_trans with (2 ^ 53)%Z; [|reflexivity].
      rewrite Zlt_Qlt. eapply Qle_lt_trans; [apply Qfloor_le|done]. }
    pose proof (secondsToHms_fin rt v y Hor Hy) as Heq.
    rewrite Hfl in Heq. specialize (Heq Hlt).
    set (n := Qfloor x) in *.
    exists (n / 3600)%Z, ((n mod 3600) / 60)%Z, (n mod 60)%Z.
    assert (H1 : (0 <= n mod 3600 < 3600)%Z) by (apply Z.mod_pos_bound; lia).
    assert (H2 : (0 <= n mod 60 < 60)%Z) by (apply Z.mod_pos_bound; lia).
    repeat split.
    + apply Z.div_pos; lia.
    + apply Z.div_pos; lia.
    + apply Z.div_lt_upper_bound; lia.
    + lia.
    + lia.
    + pose proof (Z.div_mod n 3600) as D1.
      pose proof (Z.div_mod (n mod 3600) 60) as D2.
      pose proof (Z.div_mod n 60) as D3.
      pose proof (Z.mod_pos_bound (n mod 3600) 60) as D4. lia.
    + intros Hge. rewrite Heq, bool_decide_eq_true_2; [reflexivity|].
      assert (3600 <= n)%Z.
      { change 3600%Z with (Qfloor 3600). by apply Qfloor_resp_le. }
      apply Z.div_str_pos. lia.
    + apply Z.div_small. split; [lia|].
      rewrite Zlt_Qlt. eapply Qle_lt_trans; [apply Qfloor_le|done].
    + rewrite Heq, bool_decide_eq_false_2; [reflexivity|].
      assert (n < 3600)%Z.
      { rewrite Zlt_Qlt. eapply Qle_lt_trans; [apply Qfloor_le|done]. }
      rewrite Z.div_small; lia.
Qed.

Lemma secondsToHms_label_witness :
  Js.secondsToHms Fixtures.rt0 Js.VUndefined = "0:00" /\
  exists h m s : Z,
    (0 <= h)%Z /\ (0 <= m < 60)%Z /\ (0 <= s < 60)%Z /\
    (h * 3600 + m * 60 + s = Qfloor 7325.5)%Z /\
    ((3600 <= 7325.5)%Q ->
     Js.secondsToHms Fixtures.rt0 (Js.VNum (Js.Fin 7325.5))
     = pretty h ++ ":" ++ two_digits m ++ ":" ++ two_digits s) /\
    ((7325.5 < 3600)%Q ->
     h = 0%Z /\
     Js.secondsToHms Fixtures.rt0 (Js.VNum (Js.Fin 7325.5))
     = pretty m ++ ":" ++ two_digits s).
Proof.
  split.
  - apply (proj1 (secondsToHms_label Fixtures.rt0 Js.VUndefined)).
    reflexivity.
  - apply (proj2 (secondsToHms_label Fixtures.rt0 (Js.VNum (Js.Fin 7325.5)))
             7325.5%Q).
    + reflexivity.
    + vm_compute. discriminate.
    + reflexivity.
Defined.

Example secondsToHms_7325 :
  Js.secondsToHms Fixtures.rt0 (Js.VNum (Js.Fin 7325.5)) = "2:02:05".
Proof. reflexivity. Qed.

Example secondsToHms_59 :
  Js.secondsToHms Fixtures.rt0 (Js.VNum (Js.Fin 59)) = "0:59".
Proof. reflexivity. Qed.

Example secondsToHms_text :
  Js.secondsToHms Fixtures.rt0 (Js.VStr "soon") = "0:00".
Proof. reflexivity. Qed.

(** On a whole number of seconds the older [formatDuration] of part_001
    writes the same label. *)
Lemma formatDuration_whole (rt : Js.runtime) (n : Z) :
  (0 <= n < 2 ^ 53)%Z ->
  Js.formatDuration rt (Js.VNum (Js.Fin (inject_Z n)))
  = Js.secondsToHms rt (Js.VNum (Js.Fin (inject_Z n))).
Proof.
  intros Hn.
  assert (H0 : (0 <= inject_Z n)%Q).
  { change 0%Q with (inject_Z 0). rewrite <- Zle_Qle. lia. }
  rewrite (secondsToHms_fin rt _ (inject_Z n)); rewrite ?Qfloor_Z; try lia; try done.
  - unfold Js.formatDuration, Js.Number.
    change (Js.Fin 3600) with (Js.Fin (inject_Z (Zpos 3600))).
    change (Js.Fin 60) with (Js.Fin (inject_Z (Zpos 60))).
    rewrite floor_div_pos, Qfloor_Z.
    destruct (floor_rem_pos (inject_Z n) 3600 H0) as (r & -> & Hr & Hfr).
    rewrite floor_div_pos, Hfr, Qfloor_Z.
    assert (H1 : (0 <= n mod 3600 < 3600)%Z) by (apply Z.mod_pos_bound; lia).
    assert (H2 : (0 <= n mod 60 < 60)%Z) by (apply Z.mod_pos_bound; lia).
    assert (H3 : (0 <= n mod 3600 / 60 < 60)%Z).
    { split; [apply Z.div_pos; lia|apply Z.div_lt_upper_bound; lia]. }
    assert (H4 : (0 <= n / 3600 < 10 ^ 21)%Z).
    { split; [apply Z.div_pos; lia|apply Z.div_lt_upper_bound; lia]. }
    assert (Hs : Js.toString rt (Js.num_rem (Js.Fin (inject_Z n))
                                   (Js.Fin (inject_Z 60)))
                 = pretty (n mod 60)%Z).
    { unfold Js.num_rem. change (Qeq_bool (inject_Z 60) 0) with false.
      cbv iota.
      assert (Hd : (0 <= inject_Z n / inject_Z 60)%Q).
      { apply Qle_shift_div_l; [reflexivity|]. by rewrite Qmult_0_l. }
      rewrite (Qtrunc_nonneg _ Hd), (Qfloor_div_pos _ 60), Qfloor_Z.
      rewrite <- inject_Z_mult. unfold Qminus. rewrite <- inject_Z_opp.
      rewrite <- inject_Z_plus. unfold Js.toString.
      rewrite Qfloor_Z, Qeq_bool_refl.
      replace (n + - (60 * (n / 60)))%Z with (n mod 60)%Z
        by (rewrite Z.mod_eq; lia).
      apply String_of_small. lia. }
    rewrite Hs, !String_of_small, !padStart_two_digits by lia.
    unfold Js.gt0. reflexivity.
  - unfold Js.num_or0, Js.Number, Js.num_truthy.
    destruct (Qeq_bool (inject_Z n) 0) eqn:E; [|reflexivity].
    apply Qeq_bool_eq in E. f_equal.
    apply (proj1 (inject_Z_injective n 0)) in E. by rewrite E.
Qed.

(** ** Destination file names *)

Lemma append_cons (a : ascii) (s t : string) :
  String a s ++ t = String a (s ++ t).
Proof. reflexivity. Qed.

Lemma append_assoc (s t u : string) : (s ++ t) ++ u = s ++ (t ++ u).
Proof.
  induction s as [|a s IH]; [reflexivity|].
  by rewrite !append_cons, IH.
Qed.

Lemma occurs_app (c : ascii) (s t : string) :
  occurs c (s ++ t) = occurs c s || occurs c t.
Proof.
  induction s as [|a s IH]; [reflexivity|].
  rewrite append_cons. simpl. rewrite IH. by rewrite orb_assoc.
Qed.

(** A text is cut in one way only at the last occurrence of a character. *)
Lemma split_at_last (c : ascii) (s1 s2 t1 t2 : string) :
  occurs c t1 = false -> occurs c t2 = false ->
  s1 ++ String c t1 = s2 ++ String c t2 -> s1 = s2 /\ t1 = t2.
Proof.
  intros H1 H2. revert s2.
  induction s1 as [|a s1 IH]; intros [|b s2] Heq;
    rewrite ?append_cons in Heq;
    change ("" ++ String c t1) with (String c t1) in Heq;
    change ("" ++ String c t2) with (String c t2) in Heq.
  - by injection Heq as ->.
  - injection Heq as -> ->.
    rewrite occurs_app in H1. simpl in H1.
    rewrite Ascii.eqb_refl, orb_true_r in H1. discriminate.
  - injection Heq as -> <-.
    rewrite occurs_app in H2. simpl in H2.
    rewrite Ascii.eqb_refl, orb_true_r in H2. discriminate.
  - injection Heq as -> Heq. destruct (IH _ Heq) as [-> ->]. done.
Qed.

Lemma pretty_N_go_occurs (c : ascii) (x : N) (s : string) :
  (forall d, pretty_N_char d <> c) ->
  occurs c s = false -> occurs c (pretty_N_go x s) = false.
Proof.
  intros Hc. revert s.
  induction (N.lt_wf_0 x) as [x _ IH]; intros s Hs.
  destruct (decide (x = 0%N)) as [->|Hx]; [by rewrite pretty_N_go_0|].
  rewrite pretty_N_go_step by lia.
  apply IH; [apply N.div_lt; lia|].
  simpl. rewrite Hs, orb_false_r.
  apply Ascii.eqb_neq, Hc.
Qed.

Lemma pretty_Z_occurs (c : ascii) (z : Z) :
  c <> "-"%char -> (forall d, pretty_N_char d <> c) ->
  occurs c (pretty z) = false.
Proof.
  intros Hdash Hc.
  assert (HN : forall p : positive, occurs c (pretty p) = false).
  { intros p. unfold pretty, pretty_positive, pretty, pretty_N.
    rewrite decide_False by done. by apply pretty_N_go_occurs. }
  destruct z as [|p|p]; unfold pretty, pretty_Z.
  - change (Ascii.eqb "0" c || false = false).
    rewrite orb_false_r. apply Ascii.eqb_neq, (Hc 0%N).
  - apply HN.
  - change (Ascii.eqb "-" c || occurs c (pretty p) = false).
    rewrite HN, orb_false_r. by apply Ascii.eqb_neq.
Qed.


Lemma digit_not_dot (d : N) : pretty_N_char d <> "."%char.
Proof. unfold pretty_N_char. repeat case_match; discriminate. Qed.


Lemma filename_is_fileName (e : AppJs.Env) (type : option string) :
  AppJs.filename e type = Lib.fileName "video" (AppJs.now e) type.
Proof. reflexivity. Qed.




(** ** What the replies show of a record *)

Lemma toJSON_has_filePath (d : Mongoose.Download) :
  has_key "filePath" (JObj (Mongoose.toJSON d)) = true.
Proof. reflexivity. Qed.

Lemma optional_no_filePath (k : string) (v : Mongoose.path_value) :
  String.eqb k "filePath" = false ->
  existsb (fun p => String.eqb (fst p) "filePath" || has_key "filePath" (snd p))
    (Mongoose.select_minus "filePath" (Mongoose.optional k v)) = false.
Proof.
  intros Hk. destruct v; simpl; [reflexivity|..];
    unfold Mongoose.select_minus, filter, list_filter; simpl;
    case_decide; simpl; rewrite ?Hk; reflexivity.
Qed.

Lemma select_minus_app (k : string) (l1 l2 : list (string * json)) :
  Mongoose.select_minus k (l1 ++ l2)%list
  = (Mongoose.select_minus k l1 ++ Mongoose.select_minus k l2)%list.
Proof. unfold Mongoose.select_minus. apply filter_app. Qed.

(** The projection of GET /downloads leaves no [filePath] field. *)
Lemma select_hides_filePath (d : Mongoose.Download) :
  has_key "filePath"
    (JObj (Mongoose.select_minus "filePath" (Mongoose.toJSON d))) = false.
Proof.
  unfold Mongoose.toJSON. rewrite !select_minus_app.
  cbn [has_key]. rewrite !existsb_app.
  rewrite !optional_no_filePath by reflexivity.
  reflexivity.
Qed.

Lemma listing_hides_filePath (db : gmap string Mongoose.Download) (r : response) :
  Lib.listing db = Replied r -> has_key "filePath" (body r) = false.
Proof.
  intros [= <-]. cbn [body has_key].
  induction (Mongoose.find_sorted db) as [|d l IH]; [reflexivity|].
  rewrite fmap_cons. cbn [existsb]. rewrite IH, orb_false_r.
  apply select_hides_filePath.
Qed.

(** The replies of POST /download of src/app.js carry no [filePath]. *)
Lemma post_download_hides_filePath (cfg : Config) (e : AppJs.Env)
    (url type : option string) (w : World) (r : response) :
  fst (fst (AppJs.post_download cfg e url type w)) = Replied r ->
  has_key "filePath" (body r) = false.
Proof.
  unfold AppJs.post_download.
  repeat (case_match; simpl); intros [= <-]; reflexivity.
Qed.

Lemma insert_newest_elem (d x : Mongoose.Download) (l : list Mongoose.Download) :
  x ∈ Mongoose.insert_newest d l <-> x = d \/ x ∈ l.
Proof.
  induction l as [|y l IH]; simpl.
  - rewrite list_elem_of_singleton, elem_of_nil. tauto.
  - case_match; rewrite !elem_of_cons; rewrite ?IH; tauto.
Qed.

(** The sorted listing holds exactly the stored documents. *)
Lemma find_sorted_elem (db : gmap string Mongoose.Download) (d : Mongoose.Download) :
  d ∈ Mongoose.find_sorted db <-> exists id, db !! id = Some d.
Proof.
  unfold Mongoose.find_sorted.
  assert (H : forall l : list Mongoose.Download,
             d ∈ foldr Mongoose.insert_newest [] l <-> d ∈ l).
  { induction l as [|y l IH]; simpl; [done|].
    rewrite insert_newest_elem, elem_of_cons, IH. done. }
  rewrite H, list_elem_of_fmap. split.
  - intros [[id d'] [-> Hin]]. exists id. by apply elem_of_map_to_list.
  - intros [id Hid]. exists (id, d). split; [done|].
    by apply elem_of_map_to_list.
Qed.

(** C1, the behaviour of the code.  GET /download/:id (part_000,
    part_001, .history) replies with the whole document, and GET
    /downloads-list of src/app.js with every whole document: the field
    [filePath] is in the reply as soon as a record is stored. *)
Theorem replies_expose_filePath :
  (forall (caught : outcome) (e : Lib.Env) (id : string) (w : World)
          (d : Mongoose.Download),
     Lib.find_refused e = false -> db w !! id = Some d ->
     Lib.get_download caught e id w
     = Replied (mkResponse 200 (JObj (Mongoose.toJSON d)))
     /\ has_key "filePath" (JObj (Mongoose.toJSON d)) = true
     /\ In ("filePath", JStr (Mongoose.filePath d)) (Mongoose.toJSON d)) /\
  (forall (e : AppJs.Env) (id : string) (w : World) (d : Mongoose.Download),
     AppJs.find_refused e = false -> db w !! id = Some d ->
     exists items,
       AppJs.get_downloads_list e w = Replied (mkResponse 200 (JArr items))
       /\ In (JObj (Mongoose.toJSON d)) items
       /\ has_key "filePath" (JArr items) = true).
Proof.
  split.
  - intros caught e id w d Hf Hd. unfold Lib.get_download, Mongoose.findById.
    rewrite Hf, Hd. repeat split. simpl. tauto.
  - intros e id w d Hf Hd. unfold AppJs.get_downloads_list. rewrite Hf.
    eexists. split; [reflexivity|].
    assert (Hin : d ∈ Mongoose.find_sorted (db w)).
    { apply find_sorted_elem. eauto. }
    split.
    + apply list_elem_of_In, list_elem_of_fmap. eauto.
    + cbn [has_key]. apply existsb_exists.
      exists (JObj (Mongoose.toJSON d)). split; [|reflexivity].
      apply list_elem_of_In, list_elem_of_fmap. eauto.
Qed.

Lemma replies_expose_filePath_witness :
  Ytdl.get_download
    (Fixtures.lib_env (Lib.Finished 0) "x" false false false false)
    "65f0c0ffee" Fixtures.w1
  = Replied (mkResponse 200 (JObj (Mongoose.toJSON Fixtures.song)))
  /\ has_key "filePath" (JObj (Mongoose.toJSON Fixtures.song)) = true
  /\ In ("filePath", JStr Fixtures.song_path) (Mongoose.toJSON Fixtures.song).
Proof.
  apply (proj1 replies_expose_filePath); reflexivity.
Defined.

Example downloads_list_shows_path :
  AppJs.get_downloads_list (Fixtures.app_env Fixtures.idles "x" false)
    Fixtures.w1
  = Replied (mkResponse 200
      (JArr [JObj [("_id", JStr "65f0c0ffee"); ("title", JStr "Test Song");
                   ("url", JStr "https://example.com/watch?v=abc");
                   ("fileName", JStr "Test Song_1700000000000.mp3");
                   ("fileType", JStr "audio");
                   ("downloadDate", JNum 1700000000900);
                   ("filePath",
                    JStr "/srv/app/downloads/Test Song_1700000000000.mp3");
                   ("fileSize", JNum 1024); ("duration", JStr "3:33");
                   ("thumbnail", JNull); ("__v", JNum 0)]])).
Proof. vm_compute. reflexivity. Qed.

(** ** POST /download of src/app.js *)

Lemma missing_field (o : option string) :
  missing o = true <-> o = None \/ o = Some "".
Proof.
  unfold missing. destruct o as [[|a s]|]; simpl; split; intros H;
    try done; try (by left); try (by right); by destruct H.
Qed.

(** A request without [url] or without [type] is answered 400 and no
    command is run. *)
Lemma post_download_rejects_missing (cfg : Config) (e : AppJs.Env)
    (url type : option string) (w : World) :
  missing url = true \/ missing type = true ->
  AppJs.post_download cfg e url type w
  = (error_reply 400 "url and type required", w, []).
Proof.
  intros H. unfold AppJs.post_download.
  destruct H as [-> | ->]; [reflexivity|by rewrite orb_true_r].
Qed.

Lemma save_invalid (refused : bool) (valid : Mongoose.Download -> bool)
    (d : Mongoose.Download) (db : gmap string Mongoose.Download) :
  valid d = false -> Mongoose.save refused valid d db = None.
Proof. intros H. unfold Mongoose.save. by rewrite H. Qed.

(** The guard of line 52 is the only one: past it the command runs once. *)
Lemma post_download_runs_once (cfg : Config) (e : AppJs.Env)
    (url type : option string) (w : World) :
  missing url = false -> missing type = false ->
  snd (AppJs.post_download cfg e url type w) = [AppJs.cmd cfg e url type]
  /\ fs (snd (fst (AppJs.post_download cfg e url type w)))
     = AppJs.exec_fs (AppJs.ytdlp e (AppJs.cmd cfg e url type) (fs w)).
Proof.
  intros Hu Ht. unfold AppJs.post_download. rewrite Hu, Ht. simpl.
  repeat case_match; done.
Qed.

(** C2, the behaviour of the code.  A [type] that is present but is
    neither [audio] nor [video] is not rejected: the handler takes it for
    video, runs yt-dlp once, and answers 500 (never 400) because the
    schema refuses the record; nothing is stored. *)
Theorem unknown_kind_reaches_downloader (cfg : Config) (e : AppJs.Env)
    (url : option string) (t : string) (w : World) :
  missing url = false -> Js.str_truthy t = true ->
  Mongoose.in_enum t = false ->
  let run := AppJs.post_download cfg e url (Some t) w in
  snd run = [AppJs.cmd cfg e url (Some t)]
  /\ (exists r, fst (fst run) = Replied r /\ status r = 500)
  /\ db (snd (fst run)) = db w
  /\ fs (snd (fst run))
     = AppJs.exec_fs (AppJs.ytdlp e (AppJs.cmd cfg e url (Some t)) (fs w)).
Proof.
  intros Hu Ht Henum run. subst run. unfold AppJs.post_download.
  assert (Hm : missing (Some t) = false) by (unfold missing; simpl; by rewrite Ht).
  rewrite Hu, Hm.
  cbn -[Mongoose.save AppJs.cmd AppJs.filepath AppJs.filename AppJs.newDownload].
  unfold AppJs.db_failed, error_reply.
  case_match; [repeat split; eauto|].
  case_match; [|repeat split; eauto].
  rewrite save_invalid by exact Henum.
  repeat split; eauto.
Qed.

Lemma unknown_kind_reaches_downloader_witness :
  let e := Fixtures.app_env (Fixtures.writes Fixtures.mp4_path 1024) "id1" false in
  let run := AppJs.post_download Fixtures.cfg0 e Fixtures.song_url
               (Some "podcast") Fixtures.w0 in
  snd run = [AppJs.cmd Fixtures.cfg0 e Fixtures.song_url (Some "podcast")]
  /\ (exists r, fst (fst run) = Replied r /\ status r = 500)
  /\ db (snd (fst run)) = db Fixtures.w0
  /\ fs (snd (fst run))
     = AppJs.exec_fs
         (AppJs.ytdlp e
            (AppJs.cmd Fixtures.cfg0 e Fixtures.song_url (Some "podcast"))
            (fs Fixtures.w0)).
Proof.
  intros e run.
  apply (unknown_kind_reaches_downloader Fixtures.cfg0 e Fixtures.song_url
           "podcast" Fixtures.w0); reflexivity.
Defined.

Example podcast_request :
  AppJs.post_download Fixtures.cfg0
    (Fixtures.app_env (Fixtures.writes Fixtures.mp4_path 1024) "id1" false)
    Fixtures.song_url (Some "podcast") Fixtures.w0
  = (error_reply 500 "File saved but DB insert failed",
     mkWorld {[Fixtures.mp4_path := 1024%N]} ∅,
     ["yt-dlp -f best -o " ++ dq ++ Fixtures.mp4_path ++ dq ++ " " ++ dq
      ++ "https://example.com/watch?v=abc" ++ dq]).
Proof. vm_compute. reflexivity. Qed.

(** C3, the behaviour of the code.  When yt-dlp exits with an error the
    callback of src/app.js only replies: the download directory stays as
    the child process left it, so a partial destination file remains; no
    record is stored. *)
Theorem failed_exec_leaves_files (cfg : Config) (e : AppJs.Env)
    (url type : option string) (w : World) :
  missing url = false -> missing type = false ->
  AppJs.exec_error (AppJs.ytdlp e (AppJs.cmd cfg e url type) (fs w)) = true ->
  let r := AppJs.ytdlp e (AppJs.cmd cfg e url type) (fs w) in
  AppJs.post_download cfg e url type w
  = (Replied (mkResponse 500
       (JObj [("error", JStr "Download failed");
              ("details", JStr (AppJs.exec_stderr r))])),
     mkWorld (AppJs.exec_fs r) (db w), [AppJs.cmd cfg e url type]).
Proof.
  intros Hu Ht Herr r. unfold AppJs.post_download. rewrite Hu, Ht. simpl.
  fold r. subst r. by rewrite Herr.
Qed.

Lemma failed_exec_leaves_files_witness :
  let e := Fixtures.app_env (Fixtures.breaks Fixtures.mp3_path 512) "id1" false in
  let run := AppJs.post_download Fixtures.cfg0 e Fixtures.song_url
               (Some "audio") Fixtures.w0 in
  fs (snd (fst run)) !! Fixtures.mp3_path = Some 512%N
  /\ AppJs.filepath Fixtures.cfg0 e (Some "audio") = Fixtures.mp3_path
  /\ db (snd (fst run)) = ∅.
Proof.
  intros e run. subst run.
  rewrite (failed_exec_leaves_files Fixtures.cfg0 e Fixtures.song_url
             (Some "audio") Fixtures.w0); [|reflexivity..].
  repeat split.
Defined.

Lemma save_Some (refused : bool) (valid : Mongoose.Download -> bool)
    (d : Mongoose.Download) (db db' : gmap string Mongoose.Download) :
  Mongoose.save refused valid d db = Some db' ->
  valid d = true /\ refused = false /\ db !! Mongoose._id d = None
  /\ db' = <[Mongoose._id d := d]> db.
Proof.
  unfold Mongoose.save.
  destruct (valid d), refused, (db !! Mongoose._id d); simpl; intros [= <-]; done.
Qed.


(** Past the guard and a clean exit of yt-dlp, the reply is decided by
    [statSync] and [save]. *)
Lemma post_download_after_exec (cfg : Config) (e : AppJs.Env)
    (url type : option string) (w : World) :
  missing url = false -> missing type = false ->
  let r := AppJs.ytdlp e (AppJs.cmd cfg e url type) (fs w) in
  AppJs.exec_error r = false ->
  AppJs.post_download cfg e url type w
  = match Fs.statSync (AppJs.exec_fs r) (AppJs.filepath cfg e type) with
    | None => (AppJs.db_failed, mkWorld (AppJs.exec_fs r) (db w),
               [AppJs.cmd cfg e url type])
    | Some size =>
        match Mongoose.save (AppJs.save_refused e) Mongoose.valid_app
                (AppJs.newDownload cfg e url type size) (db w) with
        | None => (AppJs.db_failed, mkWorld (AppJs.exec_fs r) (db w),
                   [AppJs.cmd cfg e url type])
        | Some db' =>
            (Replied (mkResponse 200
               (JObj [("message",
                       JStr (text type ++ " downloaded successfully"));
                      ("link",
                       JStr ("http://localhost:" ++ PORT cfg ++ "/downloads/"
                             ++ AppJs.filename e type))])),
             mkWorld (AppJs.exec_fs r) db', [AppJs.cmd cfg e url type])
        end
    end.
Proof.
  intros Hu Ht r Herr. unfold AppJs.post_download. rewrite Hu, Ht.
  cbn -[Mongoose.save AppJs.cmd AppJs.filepath AppJs.filename AppJs.newDownload].
  fold r. rewrite Herr. reflexivity.
Qed.

(** C4, as amended.  When yt-dlp exits cleanly but the destination file
    is not there, [statSync] throws inside the [try] of lines 71-92: the
    reply is 500 with the text of a failed store write, and no record is
    stored. *)
Theorem missing_file_reported_as_db_failure (cfg : Config) (e : AppJs.Env)
    (url type : option string) (w : World) :
  missing url = false -> missing type = false ->
  let r := AppJs.ytdlp e (AppJs.cmd cfg e url type) (fs w) in
  AppJs.exec_error r = false ->
  AppJs.exec_fs r !! AppJs.filepath cfg e type = None ->
  AppJs.post_download cfg e url type w
  = (error_reply 500 "File saved but DB insert failed",
     mkWorld (AppJs.exec_fs r) (db w), [AppJs.cmd cfg e url type]).
Proof.
  intros Hu Ht r Herr Hnone.
  rewrite post_download_after_exec by done.
  fold r. unfold Fs.statSync. by rewrite Hnone.
Qed.

Lemma missing_file_reported_as_db_failure_witness :
  let e := Fixtures.app_env Fixtures.idles "id1" false in
  AppJs.post_download Fixtures.cfg0 e Fixtures.song_url (Some "audio")
    Fixtures.w0
  = (error_reply 500 "File saved but DB insert failed",
     mkWorld
       (AppJs.exec_fs
          (AppJs.ytdlp e
             (AppJs.cmd Fixtures.cfg0 e Fixtures.song_url (Some "audio"))
             (fs Fixtures.w0)))
       (db Fixtures.w0),
     [AppJs.cmd Fixtures.cfg0 e Fixtures.song_url (Some "audio")]).
Proof.
  intros e.
  apply (missing_file_reported_as_db_failure Fixtures.cfg0 e
           Fixtures.song_url (Some "audio") Fixtures.w0); reflexivity.
Defined.

(** C4, counterexample.  The reply to a clean exit without a file is the
    reply to a refused store write: the two failures cannot be told
    apart. *)
Lemma missing_file_reply_not_distinct :
  let absent := Fixtures.app_env Fixtures.idles "id1" false in
  let refused := Fixtures.app_env (Fixtures.writes Fixtures.mp3_path 1024) "id1" true in
  let run1 := AppJs.post_download Fixtures.cfg0 absent Fixtures.song_url
                (Some "audio") Fixtures.w0 in
  let run2 := AppJs.post_download Fixtures.cfg0 refused Fixtures.song_url
                (Some "audio") Fixtures.w0 in
  fs (snd (fst run1)) !! Fixtures.mp3_path = None
  /\ fs (snd (fst run2)) !! Fixtures.mp3_path = Some 1024%N
  /\ db (snd (fst run1)) = ∅ /\ db (snd (fst run2)) = ∅
  /\ fst (fst run1) = fst (fst run2).
Proof. vm_compute. repeat split. Qed.

(** ** The stored record *)

Lemma ends_in_ext (prefix ext : string) :
  ends_in (String "." ext) (prefix ++ "." ++ ext).
Proof. by exists prefix. Qed.

Lemma filename_ends (e : AppJs.Env) (type : option string) :
  (type = Some "audio" -> ends_in ".mp3" (AppJs.filename e type)) /\
  (type = Some "video" -> ends_in ".mp4" (AppJs.filename e type)).
Proof.
  split; intros ->; unfold AppJs.filename; simpl is_audio; cbv iota;
    rewrite <- append_assoc; apply ends_in_ext.
Qed.

Lemma fileName_ends (title : string) (now : Z) (type : option string) :
  (type = Some "audio" -> ends_in ".mp3" (Lib.fileName title now type)) /\
  (type = Some "video" -> ends_in ".mp4" (Lib.fileName title now type)).
Proof.
  split; intros ->; unfold Lib.fileName, Lib.ext_of; simpl is_audio; cbv iota;
    exists (title ++ "_" ++ pretty now); by rewrite !append_assoc.
Qed.

(** A 200 reply of POST /download of src/app.js comes with a new record
    built from the file that is on disk. *)
Lemma app_success_record (cfg : Config) (e : AppJs.Env)
    (url type : option string) (w : World) (r : response) :
  fst (fst (AppJs.post_download cfg e url type w)) = Replied r ->
  status r = 200 ->
  exists size,
    db (snd (fst (AppJs.post_download cfg e url type w))) !! AppJs.new_id e
    = Some (AppJs.newDownload cfg e url type size)
    /\ fs (snd (fst (AppJs.post_download cfg e url type w)))
         !! AppJs.filepath cfg e type = Some size
    /\ db w !! AppJs.new_id e = None.
Proof.
  unfold AppJs.post_download.
  destruct (missing url || missing type); [intros [= <-]; discriminate|].
  cbn -[Mongoose.save AppJs.cmd AppJs.filepath AppJs.filename AppJs.newDownload].
  destruct (AppJs.exec_error _); [intros [= <-]; discriminate|].
  destruct (Fs.statSync _ _) as [size|] eqn:Hstat; [|intros [= <-]; discriminate].
  destruct (Mongoose.save _ _ _ _) as [db'|] eqn:Hsave; [|intros [= <-]; discriminate].
  intros _ _. exists size. apply save_Some in Hsave as (_ & _ & Hfree & ->).
  cbn -[AppJs.cmd AppJs.filepath AppJs.filename AppJs.newDownload] in *.
  split; [apply lookup_insert_eq|]. split; [exact Hstat|exact Hfree].
Qed.

(** A 200 reply of POST /download of part_000 comes with a new record
    whose title is the one play-dl reported (or [video] when it reported
    none) and whose size is that of the file on disk. *)
Lemma playdl_success_record (rt : Js.runtime) (cfg : Config) (e : Lib.Env)
    (url type : option string) (w : World) (r : response) :
  fst (PlayDl.post_download rt cfg e url type w) = Replied r ->
  status r = 200 ->
  exists vd d t,
    Lib.video_info e = inr vd
    /\ db (snd (PlayDl.post_download rt cfg e url type w)) !! Lib.new_id e
       = Some d
    /\ Mongoose.title d = Js.str_or (Lib.vd_title vd) "video"
    /\ Mongoose.fileName d = Lib.fileName t (Lib.now e) type
    /\ fs (snd (PlayDl.post_download rt cfg e url type w))
         !! Mongoose.filePath d = Some (Mongoose.fileSize d).
Proof.
  unfold PlayDl.post_download.
  destruct (missing url || missing type); [intros [= <-]; discriminate|].
  destruct (Lib.video_info e) as [?|vd]; [intros [= <-]; discriminate|].
  destruct (Lib.stream e) as [?|[|]];
    [destruct (Lib.stream_from_info e) as [?|[|]]|..];
    cbn -[Mongoose.save Lib.fileName Lib.filePath Lib.title Lib.rawTitle Js.secondsToHms];
    try (intros [= <-]; discriminate).
  all: destruct (Lib.transfer e) as [n|wr ?|wr ?] eqn:Htr;
    [|intros [= <-]; discriminate
     |destruct (Lib.unlink_if_exists _ _ _); intros [= <-]; discriminate].
  all: cbn -[Mongoose.save Lib.fileName Lib.filePath Lib.title Lib.rawTitle Js.secondsToHms];
    unfold Fs.statSync; rewrite lookup_insert_eq;
    destruct (Mongoose.save _ _ _ _) as [db'|] eqn:Hsave;
      [|intros [= <-]; discriminate];
    intros _ _; apply save_Some in Hsave as (_ & _ & _ & ->);
    eexists vd, _, _; (split; [reflexivity|]);
    cbn -[Lib.fileName Lib.filePath Lib.title Lib.rawTitle Js.secondsToHms];
    (split; [apply lookup_insert_eq|]);
    (split; [reflexivity|]); (split; [reflexivity|]); apply lookup_insert_eq.
Qed.

(** C5, as amended.  After a successful submission the stored record has
    a [fileName] ending in [.mp3] for kind audio and [.mp4] for kind
    video, and a [fileSize] equal to the size of the destination file on
    disk.  Its [title] is the title play-dl reported in part_000 ([video]
    when none was reported); in src/app.js, where yt-dlp reports none to
    the handler, it is the generated file name. *)
Theorem stored_record_fields :
  (forall (cfg : Config) (e : AppJs.Env) (url type : option string)
          (w : World) (r : response),
     fst (fst (AppJs.post_download cfg e url type w)) = Replied r ->
     status r = 200 ->
     exists d,
       db (snd (fst (AppJs.post_download cfg e url type w))) !! AppJs.new_id e
       = Some d
       /\ (type = Some "audio" -> ends_in ".mp3" (Mongoose.fileName d))
       /\ (type = Some "video" -> ends_in ".mp4" (Mongoose.fileName d))
       /\ fs (snd (fst (AppJs.post_download cfg e url type w)))
            !! Mongoose.filePath d = Some (Mongoose.fileSize d)
       /\ Mongoose.title d = Mongoose.fileName d) /\
  (forall (rt : Js.runtime) (cfg : Config) (e : Lib.Env)
          (url type : option string) (w : World) (r : response),
     fst (PlayDl.post_download rt cfg e url type w) = Replied r ->
     status r = 200 ->
     exists vd d,
       Lib.video_info e = inr vd
       /\ db (snd (PlayDl.post_download rt cfg e url type w)) !! Lib.new_id e
          = Some d
       /\ (type = Some "audio" -> ends_in ".mp3" (Mongoose.fileName d))
       /\ (type = Some "video" -> ends_in ".mp4" (Mongoose.fileName d))
       /\ fs (snd (PlayDl.post_download rt cfg e url type w))
            !! Mongoose.filePath d = Some (Mongoose.fileSize d)
       /\ Mongoose.title d = Js.str_or (Lib.vd_title vd) "video").
Proof.
  split.
  - intros cfg e url type w r Hr Hs.
    destruct (app_success_record cfg e url type w r Hr Hs) as (size & Hd & Hf & _).
    exists (AppJs.newDownload cfg e url type size).
    split; [exact Hd|]. destruct (filename_ends e type) as [Ha Hv].
    repeat split; [exact Ha|exact Hv|exact Hf].
  - intros rt cfg e url type w r Hr Hs.
    destruct (playdl_success_record rt cfg e url type w r Hr Hs)
      as (vd & d & t & Hvd & Hd & Ht & Hn & Hf).
    exists vd, d. destruct (fileName_ends t (Lib.now e) type) as [Ha Hv].
    rewrite Hn. repeat split; assumption.
Qed.

Lemma stored_record_fields_witness :
  (exists d,
     db (snd (fst (AppJs.post_download Fixtures.cfg0
                     (Fixtures.app_env (Fixtures.writes Fixtures.mp3_path 1024)
                        "id1" false)
                     Fixtures.song_url (Some "audio") Fixtures.w0)))
       !! "id1" = Some d
     /\ ends_in ".mp3" (Mongoose.fileName d)
     /\ Mongoose.fileSize d = 1024%N
     /\ Mongoose.title d = Mongoose.fileName d) /\
  (exists d,
     db (snd (PlayDl.post_download Fixtures.rt0 Fixtures.cfg0
                (Fixtures.lib_env (Lib.Finished 1024) "id1" false false false
                   false)
                Fixtures.song_url (Some "audio") Fixtures.w0))
       !! "id1" = Some d
     /\ ends_in ".mp3" (Mongoose.fileName d)
     /\ Mongoose.fileSize d = 1024%N
     /\ Mongoose.title d = "Test Song").
Proof.
  split.
  - destruct (proj1 stored_record_fields Fixtures.cfg0
                (Fixtures.app_env (Fixtures.writes Fixtures.mp3_path 1024)
                   "id1" false)
                Fixtures.song_url (Some "audio") Fixtures.w0
                (mkResponse 200
                   (JObj [("message", JStr "audio downloaded successfully");
                          ("link",
                           JStr "http://localhost:3000/downloads/video_1700000000000.mp3")])))
      as (d & Hd & Ha & _ & Hf & Ht); [vm_compute; reflexivity|reflexivity|].
    exists d. split; [exact Hd|]. split; [by apply Ha|]. split; [|exact Ht].
    vm_compute in Hd. injection Hd as <-. reflexivity.
  - destruct (proj2 stored_record_fields Fixtures.rt0 Fixtures.cfg0
                (Fixtures.lib_env (Lib.Finished 1024) "id1" false false false
                   false)
                Fixtures.song_url (Some "audio") Fixtures.w0
                (mkResponse 200
                   (JObj [("success", JBool true);
                          ("message", JStr "audio downloaded successfully");
                          ("fileName", JStr "Test Song_1700000000000.mp3");
                          ("title", JStr "Test Song")])))
      as (vd & d & Hvd & Hd & Ha & _ & Hf & Ht);
      [vm_compute; reflexivity|reflexivity|].
    exists d. split; [exact Hd|]. split; [by apply Ha|].
    vm_compute in Hd. injection Hd as <-. split; reflexivity.
Defined.

(** C5, counterexample.  With a downloader that writes 1024 bytes and
    prints the title [Test Song], src/app.js stores a record whose title
    is the file name. *)
Lemma app_title_is_not_reported_title :
  let e := Fixtures.app_env (Fixtures.writes Fixtures.mp3_path 1024) "id1" false in
  let run := AppJs.post_download Fixtures.cfg0 e Fixtures.song_url
               (Some "audio") Fixtures.w0 in
  AppJs.exec_stdout
    (AppJs.ytdlp e (AppJs.cmd Fixtures.cfg0 e Fixtures.song_url (Some "audio"))
       (fs Fixtures.w0)) = "Test Song"
  /\ (exists r, fst (fst run) = Replied r /\ status r = 200)
  /\ exists d,
       db (snd (fst run)) !! "id1" = Some d
       /\ Mongoose.fileSize d = 1024%N
       /\ Mongoose.fileName d = "video_1700000000000.mp3"
       /\ Mongoose.title d = "video_1700000000000.mp3"
       /\ Mongoose.title d <> "Test Song".
Proof.
  vm_compute. split; [reflexivity|]. split; [eexists; split; reflexivity|].
  eexists. split; [reflexivity|]. repeat split. discriminate.
Qed.

(** ** Failures after the download *)

Lemma unlink_if_exists_gone (fs fs' : gmap string N) (p : string) :
  Lib.unlink_if_exists false fs p = Some fs' -> fs' !! p = None.
Proof.
  unfold Lib.unlink_if_exists, Fs.unlinkSync, Fs.existsSync.
  case_bool_decide as Hex.
  - intros [= <-]. apply lookup_delete_eq.
  - intros [= <-]. by apply eq_None_not_Some.
Qed.

Lemma unlink_if_exists_allowed (fs : gmap string N) (p : string) :
  Lib.unlink_if_exists false fs p = Some (delete p fs).
Proof.
  unfold Lib.unlink_if_exists, Fs.unlinkSync, Fs.existsSync.
  case_bool_decide as Hex; [reflexivity|].
  f_equal. symmetry. apply delete_id. by apply eq_None_not_Some.
Qed.


(** part_001 does remove the partial file when the source stream or the
    write stream fails (lines 354-368), and stores nothing; an error of
    the source that comes before the file is open finds nothing to
    remove. *)
Lemma ytdl_failure_unlinks (rt : Js.runtime) (cfg : Config) (e : Lib.Env)
    (url type : option string) (w : World) (info : Lib.Details)
    (rawTitle : string) :
  Lib.url_valid e = true -> Lib.video_info e = inr info ->
  Lib.vd_title info = Some rawTitle -> Lib.unlink_denied e = false ->
  (forall n, Lib.transfer e <> Lib.Finished n) ->
  (forall message, Lib.transfer e <> Lib.SourceError None message) ->
  let run := Ytdl.post_download rt cfg e url type w in
  (exists r, fst run = Replied r /\ status r = 500)
  /\ fs (snd run)
       !! Lib.filePath cfg (Lib.sanitize rawTitle) (Lib.now e) type = None
  /\ db (snd run) = db w.
Proof.
  intros Hv Hi Ht Hu Hfail Hearly run. subst run. unfold Ytdl.post_download.
  rewrite Hv, Hi, Ht, Hu.
  cbn -[Lib.fileName Lib.filePath Lib.sanitize Js.formatDuration].
  destruct (Lib.transfer e) as [n|[n|] m|wr m];
    [by destruct (Hfail n)| |by destruct (Hearly m)|];
    rewrite unlink_if_exists_allowed; simpl;
    (split; [eauto|]); (split; [apply lookup_delete_eq|reflexivity]).
Qed.




(** ** DELETE /download/:id *)

Lemma delete_download_found (caught : outcome) (e : Lib.Env) (id : string)
    (w : World) (d : Mongoose.Download) :
  Lib.find_refused e = false -> db w !! id = Some d ->
  Lib.delete_download caught e id w
  = match Lib.unlink_if_exists (Lib.unlink_denied e) (fs w)
            (Mongoose.filePath d) with
    | None => (caught, w)
    | Some fs1 =>
        if Lib.delete_refused e then (caught, mkWorld fs1 (db w))
        else (Lib.deleted, mkWorld fs1 (delete id (db w)))
    end.
Proof.
  intros Hf Hd. unfold Lib.delete_download, Mongoose.findById,
    Mongoose.findByIdAndDelete.
  rewrite Hf, Hd. destruct (Lib.unlink_if_exists _ _ _); [|reflexivity].
  by destruct (Lib.delete_refused e).
Qed.

Lemma delete_download_absent (caught : outcome) (e : Lib.Env) (id : string)
    (w : World) :
  Lib.find_refused e = false -> db w !! id = None ->
  Lib.delete_download caught e id w = (Lib.not_found, w).
Proof.
  intros Hf Hd. unfold Lib.delete_download, Mongoose.findById.
  by rewrite Hf, Hd.
Qed.

(** A delete that does not answer with success leaves the record. *)
Lemma delete_download_keeps_record (caught : outcome) (e : Lib.Env)
    (id : string) (w : World) (d : Mongoose.Download) :
  db w !! id = Some d ->
  fst (Lib.delete_download caught e id w) <> Lib.deleted ->
  db (snd (Lib.delete_download caught e id w)) !! id = Some d.
Proof.
  intros Hd. unfold Lib.delete_download, Mongoose.findById,
    Mongoose.findByIdAndDelete.
  destruct (Lib.find_refused e); [done|]. rewrite Hd.
  destruct (Lib.unlink_if_exists _ _ _); [|done].
  destruct (Lib.delete_refused e); [done|]. simpl. congruence.
Qed.

(** C7, as amended.  In part_000, when the first [deleteDownload(id)] of
    a stored record succeeds, a second one answers NotFound and changes
    nothing; a delete of an id without record answers NotFound and leaves
    the directory and the collection as they were; a delete whose file is
    already absent succeeds.  (The lookups are taken to answer.)  When
    the first call does not succeed the record is still stored, and the
    second call does not answer NotFound. *)
Theorem delete_twice :
  (forall (e1 e2 : Lib.Env) (id : string) (w : World) (d : Mongoose.Download),
     db w !! id = Some d ->
     fst (PlayDl.delete_download e1 id w) = Lib.deleted ->
     Lib.find_refused e2 = false ->
     PlayDl.delete_download e2 id (snd (PlayDl.delete_download e1 id w))
     = (Lib.not_found, snd (PlayDl.delete_download e1 id w))) /\
  (forall (e : Lib.Env) (id : string) (w : World) (d : Mongoose.Download),
     db w !! id = Some d ->
     Lib.find_refused e = false -> Lib.unlink_denied e = false ->
     Lib.delete_refused e = false ->
     PlayDl.delete_download e id w
     = (Lib.deleted,
        mkWorld (delete (Mongoose.filePath d) (fs w)) (delete id (db w)))) /\
  (forall (e : Lib.Env) (id : string) (w : World),
     db w !! id = None -> Lib.find_refused e = false ->
     PlayDl.delete_download e id w = (Lib.not_found, w)) /\
  (forall (e : Lib.Env) (id : string) (w : World) (d : Mongoose.Download),
     db w !! id = Some d -> fs w !! Mongoose.filePath d = None ->
     Lib.find_refused e = false -> Lib.delete_refused e = false ->
     PlayDl.delete_download e id w
     = (Lib.deleted, mkWorld (fs w) (delete id (db w)))) /\
  (forall (e1 e2 : Lib.Env) (id : string) (w : World) (d : Mongoose.Download),
     db w !! id = Some d ->
     fst (PlayDl.delete_download e1 id w) <> Lib.deleted ->
     Lib.find_refused e2 = false ->
     fst (PlayDl.delete_download e2 id (snd (PlayDl.delete_download e1 id w)))
     <> Lib.not_found).
Proof.
  unfold PlayDl.delete_download. repeat split.
  - intros e1 e2 id w d Hd Hok Hf2.
    apply delete_download_absent; [done|].
    revert Hok. unfold Lib.delete_download, Mongoose.findById,
      Mongoose.findByIdAndDelete.
    destruct (Lib.find_refused e1); [done|]. rewrite Hd.
    destruct (Lib.unlink_if_exists _ _ _); [|done].
    destruct (Lib.delete_refused e1); [done|].
    intros _. apply lookup_delete_eq.
  - intros e id w d Hd Hf Hu Hr.
    rewrite (delete_download_found _ e id w d Hf Hd), Hu, Hr.
    by rewrite unlink_if_exists_allowed.
  - intros e id w Hd Hf. by apply delete_download_absent.
  - intros e id w d Hd Hfile Hf Hr.
    rewrite (delete_download_found _ e id w d Hf Hd), Hr.
    unfold Lib.unlink_if_exists, Fs.existsSync.
    rewrite bool_decide_eq_false_2; [reflexivity|].
    rewrite Hfile. by intros [? ?].
  - intros e1 e2 id w d Hd Hfail Hf2.
    pose proof (delete_download_keeps_record _ e1 id w d Hd Hfail) as Hkept.
    rewrite (delete_download_found _ e2 id _ d Hf2 Hkept).
    destruct (Lib.unlink_if_exists _ _ _); [|done].
    by destruct (Lib.delete_refused e2).
Qed.

Lemma delete_twice_witness :
  let ok := Fixtures.lib_env (Lib.Finished 0) "x" false false false false in
  PlayDl.delete_download ok "65f0c0ffee" Fixtures.w1
  = (Lib.deleted, mkWorld ∅ ∅)
  /\ PlayDl.delete_download ok "65f0c0ffee"
       (snd (PlayDl.delete_download ok "65f0c0ffee" Fixtures.w1))
     = (Lib.not_found, snd (PlayDl.delete_download ok "65f0c0ffee" Fixtures.w1))
  /\ PlayDl.delete_download ok "0123456789" Fixtures.w1
     = (Lib.not_found, Fixtures.w1)
  /\ PlayDl.delete_download ok "65f0c0ffee" Fixtures.w1_no_file
     = (Lib.deleted, mkWorld ∅ ∅).
Proof.
  intros ok.
  destruct delete_twice as (H1 & H2 & H3 & H4 & _).
  split.
  - rewrite (H2 ok "65f0c0ffee" Fixtures.w1 Fixtures.song); reflexivity.
  - split; [|split].
    + apply (H1 ok ok "65f0c0ffee" Fixtures.w1 Fixtures.song); reflexivity.
    + apply (H3 ok "0123456789" Fixtures.w1); reflexivity.
    + rewrite (H4 ok "65f0c0ffee" Fixtures.w1_no_file Fixtures.song);
        reflexivity.
Defined.

(** C7, counterexample.  The first call removes the file and then fails
    to remove the record: it sends no success (and no reply at all in
    part_000).  The second call finds the record again and answers with
    success, not with NotFound. *)
Lemma second_delete_after_failed_first :
  let failing := Fixtures.lib_env (Lib.Finished 0) "x" false false true false in
  let ok := Fixtures.lib_env (Lib.Finished 0) "x" false false false false in
  let run1 := PlayDl.delete_download failing "65f0c0ffee" Fixtures.w1 in
  let run2 := PlayDl.delete_download ok "65f0c0ffee" (snd run1) in
  db Fixtures.w1 !! "65f0c0ffee" = Some Fixtures.song
  /\ fst run1 = Escaped
  /\ fs (snd run1) !! Fixtures.song_path = None
  /\ db (snd run1) !! "65f0c0ffee" = Some Fixtures.song
  /\ fst run2 = Lib.deleted
  /\ fst run2 <> Lib.not_found.
Proof. vm_compute. repeat split. discriminate. Qed.

(** C8, as amended.  In part_001 every failure inside DELETE
    /download/:id is answered by the same reply, 500 [Delete failed]:
    when the file was removed and the record removal failed (file gone,
    record kept), when the file removal failed (nothing removed: the
    record removal is not attempted), and when the lookup failed.  In
    part_000 the first of these sends no reply at all. *)
Theorem delete_failures_share_one_reply :
  (forall (e : Lib.Env) (id : string) (w : World) (d : Mongoose.Download),
     db w !! id = Some d -> Lib.find_refused e = false ->
     Lib.unlink_denied e = false -> Lib.delete_refused e = true ->
     Ytdl.delete_download e id w
     = (error_reply 500 "Delete failed",
        mkWorld (delete (Mongoose.filePath d) (fs w)) (db w))
     /\ PlayDl.delete_download e id w
        = (Escaped, mkWorld (delete (Mongoose.filePath d) (fs w)) (db w))) /\
  (forall (e : Lib.Env) (id : string) (w : World) (d : Mongoose.Download)
          (size : N),
     db w !! id = Some d -> Lib.find_refused e = false ->
     fs w !! Mongoose.filePath d = Some size -> Lib.unlink_denied e = true ->
     Ytdl.delete_download e id w = (error_reply 500 "Delete failed", w)) /\
  (forall (e : Lib.Env) (id : string) (w : World),
     Lib.find_refused e = true ->
     Ytdl.delete_download e id w = (error_reply 500 "Delete failed", w)).
Proof.
  unfold Ytdl.delete_download, PlayDl.delete_download. split; [|split].
  - intros e id w d Hd Hf Hu Hr.
    rewrite !(delete_download_found _ e id w d Hf Hd), Hu, Hr.
    by rewrite unlink_if_exists_allowed.
  - intros e id w d size Hd Hf Hfile Hu.
    rewrite (delete_download_found _ e id w d Hf Hd), Hu.
    unfold Lib.unlink_if_exists, Fs.existsSync, Fs.unlinkSync.
    rewrite bool_decide_eq_true_2; [reflexivity|]. rewrite Hfile. eauto.
  - intros e id w Hf. unfold Lib.delete_download, Mongoose.findById.
    by rewrite Hf.
Qed.

Lemma delete_failures_share_one_reply_witness :
  let partial := Fixtures.lib_env (Lib.Finished 0) "x" false false true false in
  let denied := Fixtures.lib_env (Lib.Finished 0) "x" false false false true in
  let down := Fixtures.lib_env (Lib.Finished 0) "x" false true false false in
  Ytdl.delete_download partial "65f0c0ffee" Fixtures.w1
  = (error_reply 500 "Delete failed", Fixtures.w1_no_file)
  /\ Ytdl.delete_download denied "65f0c0ffee" Fixtures.w1
     = (error_reply 500 "Delete failed", Fixtures.w1)
  /\ Ytdl.delete_download down "65f0c0ffee" Fixtures.w1
     = (error_reply 500 "Delete failed", Fixtures.w1).
Proof.
  intros partial denied down.
  destruct delete_failures_share_one_reply as (H1 & H2 & H3).
  split; [|split].
  - destruct (H1 partial "65f0c0ffee" Fixtures.w1 Fixtures.song) as [-> _];
      reflexivity.
  - apply (H2 denied "65f0c0ffee" Fixtures.w1 Fixtures.song 1024%N);
      reflexivity.
  - apply (H3 down "65f0c0ffee" Fixtures.w1). reflexivity.
Defined.

(** C8, counterexample.  A delete that removed the file and failed to
    remove the record is answered exactly as a delete that removed
    nothing. *)
Lemma partial_delete_reply_not_distinct :
  let partial := Fixtures.lib_env (Lib.Finished 0) "x" false false true false in
  let down := Fixtures.lib_env (Lib.Finished 0) "x" false true false false in
  let run1 := Ytdl.delete_download partial "65f0c0ffee" Fixtures.w1 in
  let run2 := Ytdl.delete_download down "65f0c0ffee" Fixtures.w1 in
  fs Fixtures.w1 !! Fixtures.song_path = Some 1024%N
  /\ fs (snd run1) !! Fixtures.song_path = None
  /\ db (snd run1) !! "65f0c0ffee" = Some Fixtures.song
  /\ snd run2 = Fixtures.w1
  /\ fst run1 = fst run2.
Proof. vm_compute. repeat split. Qed.

(** ** A duration that is not finite *)

Lemma digit_not_I (d : N) : pretty_N_char d <> "I"%char.
Proof. unfold pretty_N_char. repeat case_match; discriminate. Qed.

(** C10, counterexample.  [Infinity] is a number of seconds that is not
    negative, and it is at least 3600: [secondsToHms] renders it as
    [Infinity:NaN:NaN], which is neither [h:mm:ss] nor [m:ss] for any
    integers [h], [m] and [s]. *)
Lemma secondsToHms_of_infinity :
  (forall rt : Js.runtime,
     Js.secondsToHms rt (Js.VNum (Js.Inf false)) = "Infinity:NaN:NaN") /\
  (forall (rt : Js.runtime) (h m s : Z),
     Js.secondsToHms rt (Js.VNum (Js.Inf false))
     <> pretty h ++ ":" ++ two_digits m ++ ":" ++ two_digits s
     /\ Js.secondsToHms rt (Js.VNum (Js.Inf false))
        <> pretty m ++ ":" ++ two_digits s).
Proof.
  assert (Hlabel : forall rt : Js.runtime,
            Js.secondsToHms rt (Js.VNum (Js.Inf false)) = "Infinity:NaN:NaN")
    by reflexivity.
  assert (HI : forall z : Z, occurs "I" (pretty z) = false)
    by (intros z; apply pretty_Z_occurs; [discriminate|apply digit_not_I]).
  split; [exact Hlabel|].
  intros rt h m s. rewrite Hlabel.
  split; intros Heq; apply (f_equal (occurs "I")) in Heq;
    unfold two_digits in Heq; rewrite !occurs_app, !HI in Heq;
    discriminate Heq.
Qed.

(** ** Sample runs *)

Example sanitize_title :
  Lib.sanitize "  AC/DC - T.N.T. (Live!) " = "ACDC - TNT Live".
Proof. reflexivity. Qed.

Example sanitize_nothing_left :
  Lib.title (Lib.mkDetails (Some "???") Js.VUndefined Js.VUndefined None None)
  = "video".
Proof. reflexivity. Qed.

Example playdl_song :
  PlayDl.post_download Fixtures.rt0 Fixtures.cfg0
    (Fixtures.lib_env (Lib.Finished 1024) "65f0c0ffee" false false false false)
    Fixtures.song_url (Some "audio") Fixtures.w0
  = (Replied (mkResponse 200
       (JObj [("success", JBool true);
              ("message", JStr "audio downloaded successfully");
              ("fileName", JStr "Test Song_1700000000000.mp3");
              ("title", JStr "Test Song")])),
     Fixtures.w1).
Proof. vm_compute. reflexivity. Qed.

Example app_missing_type :
  AppJs.post_download Fixtures.cfg0
    (Fixtures.app_env (Fixtures.writes Fixtures.mp3_path 1024) "id1" false)
    Fixtures.song_url None Fixtures.w0
  = (error_reply 400 "url and type required", Fixtures.w0, []).
Proof. reflexivity. Qed.

Example downloads_hide_path :
  Ytdl.get_downloads
    (Fixtures.lib_env (Lib.Finished 0) "x" false false false false) Fixtures.w1
  = Replied (mkResponse 200
      (JArr [JObj [("_id", JStr "65f0c0ffee"); ("title", JStr "Test Song");
                   ("url", JStr "https://example.com/watch?v=abc");
                   ("fileName", JStr "Test Song_1700000000000.mp3");
                   ("fileType", JStr "audio");
                   ("downloadDate", JNum 1700000000900);
                   ("fileSize", JNum 1024); ("duration", JStr "3:33");
                   ("thumbnail", JNull); ("__v", JNum 0)]])).
Proof. vm_compute. reflexivity. Qed.

(** * Further properties of the handlers *)

(** ** Listings *)

Lemma insert_newest_perm (d : Mongoose.Download) (l : list Mongoose.Download) :
  Permutation (Mongoose.insert_newest d l) (d :: l).
Proof.
  induction l as [|x l IH]; simpl; [reflexivity|].
  case_match; [reflexivity|].
  rewrite IH. apply perm_swap.
Qed.

Lemma insert_newest_sorted (d : Mongoose.Download) (l : list Mongoose.Download) :
  StronglySorted not_older l ->
  StronglySorted not_older (Mongoose.insert_newest d l).
Proof.
  induction l as [|x l IH]; intros Hs; simpl.
  - repeat constructor.
  - apply StronglySorted_inv in Hs as [Hl Hx].
    destruct (Z.leb_spec (Mongoose.downloadDate x) (Mongoose.downloadDate d))
      as [Hle|Hlt].
    + constructor; [by constructor|].
      constructor; [exact Hle|].
      eapply Forall_impl; [exact Hx|].
      intros y Hy. unfold not_older in *. lia.
    + constructor; [by apply IH|].
      rewrite (insert_newest_perm d l). constructor; [|exact Hx].
      unfold not_older. lia.
Qed.

Lemma find_sorted_perm (db : gmap string Mongoose.Download) :
  Permutation (Mongoose.find_sorted db) (snd <$> map_to_list db).
Proof.
  unfold Mongoose.find_sorted.
  induction (snd <$> map_to_list db) as [|d l IH]; simpl; [reflexivity|].
  by rewrite insert_newest_perm, IH.
Qed.

Lemma find_sorted_sorted (db : gmap string Mongoose.Download) :
  StronglySorted not_older (Mongoose.find_sorted db).
Proof.
  unfold Mongoose.find_sorted.
  induction (snd <$> map_to_list db) as [|d l IH]; simpl; [constructor|].
  by apply insert_newest_sorted.
Qed.

(** X1.  When the query answers, GET /downloads-list of src/app.js
    replies 200 with one item per stored record and no other item, the
    more recent [downloadDate] first. *)
Theorem downloads_list_newest_first (e : AppJs.Env) (w : World) :
  AppJs.find_refused e = false ->
  exists docs : list Mongoose.Download,
    AppJs.get_downloads_list e w
    = Replied (mkResponse 200
        (JArr ((fun d => JObj (Mongoose.toJSON d)) <$> docs)))
    /\ Permutation docs (snd <$> map_to_list (db w))
    /\ length docs = size (db w)
    /\ StronglySorted not_older docs.
Proof.
  intros Hf. exists (Mongoose.find_sorted (db w)).
  unfold AppJs.get_downloads_list. rewrite Hf.
  split; [reflexivity|]. split; [apply find_sorted_perm|].
  split; [|apply find_sorted_sorted].
  rewrite (Permutation_length (find_sorted_perm (db w))).
  by rewrite length_fmap, length_map_to_list.
Qed.

Lemma downloads_list_newest_first_witness :
  exists docs : list Mongoose.Download,
    AppJs.get_downloads_list (Fixtures.app_env Fixtures.idles "x" false)
      Fixtures2.w2
    = Replied (mkResponse 200
        (JArr ((fun d => JObj (Mongoose.toJSON d)) <$> docs)))
    /\ Permutation docs (snd <$> map_to_list (db Fixtures2.w2))
    /\ length docs = size (db Fixtures2.w2)
    /\ StronglySorted not_older docs.
Proof.
  apply (downloads_list_newest_first (Fixtures.app_env Fixtures.idles "x" false)
           Fixtures2.w2).
  reflexivity.
Defined.

Example two_records_listed :
  Mongoose.find_sorted (db Fixtures2.w2) = [Fixtures.song; Fixtures2.older].
Proof. vm_compute. reflexivity. Qed.

Lemma select_minus_In (k k' : string) (v : json) (fields : list (string * json)) :
  In (k', v) (Mongoose.select_minus k fields) <-> In (k', v) fields /\ k' <> k.
Proof.
  unfold Mongoose.select_minus.
  rewrite <- !list_elem_of_In, list_elem_of_filter. simpl. tauto.
Qed.

(** X2.  When the query answers, GET /downloads of part_000 and part_001
    replies 200 with one item per stored record, the more recent first;
    an item has the fields of its document except [filePath], and the key
    [filePath] occurs nowhere in the reply.  When the query fails,
    part_001 replies 500 and part_000 sends nothing. *)
Theorem downloads_projection (e : Lib.Env) (w : World) :
  (Lib.find_refused e = false ->
   exists docs : list Mongoose.Download,
     Ytdl.get_downloads e w
     = Replied (mkResponse 200
         (JArr ((fun d => JObj (Mongoose.select_minus "filePath"
                                  (Mongoose.toJSON d))) <$> docs)))
     /\ PlayDl.get_downloads e w = Ytdl.get_downloads e w
     /\ Permutation docs (snd <$> map_to_list (db w))
     /\ StronglySorted not_older docs
     /\ has_key "filePath" (JArr (items_of (Ytdl.get_downloads e w))) = false
     /\ forall d k v,
          In (k, v) (Mongoose.select_minus "filePath" (Mongoose.toJSON d))
          <-> In (k, v) (Mongoose.toJSON d) /\ k <> "filePath") /\
  (Lib.find_refused e = true ->
   Ytdl.get_downloads e w = error_reply 500 "Database error"
   /\ PlayDl.get_downloads e w = Escaped).
Proof.
  unfold Ytdl.get_downloads, PlayDl.get_downloads, Lib.get_downloads.
  split; intros Hf; rewrite Hf; [|done].
  exists (Mongoose.find_sorted (db w)).
  split; [reflexivity|]. split; [reflexivity|].
  split; [apply find_sorted_perm|]. split; [apply find_sorted_sorted|].
  split; [|intros d k v; apply select_minus_In].
  apply (listing_hides_filePath (db w) _ eq_refl).
Qed.

Lemma downloads_projection_witness :
  (exists docs : list Mongoose.Download,
     Ytdl.get_downloads Fixtures2.quiet Fixtures2.w2
     = Replied (mkResponse 200
         (JArr ((fun d => JObj (Mongoose.select_minus "filePath"
                                  (Mongoose.toJSON d))) <$> docs)))
     /\ PlayDl.get_downloads Fixtures2.quiet Fixtures2.w2
        = Ytdl.get_downloads Fixtures2.quiet Fixtures2.w2
     /\ Permutation docs (snd <$> map_to_list (db Fixtures2.w2))
     /\ StronglySorted not_older docs
     /\ has_key "filePath"
          (JArr (items_of (Ytdl.get_downloads Fixtures2.quiet Fixtures2.w2)))
        = false
     /\ forall d k v,
          In (k, v) (Mongoose.select_minus "filePath" (Mongoose.toJSON d))
          <-> In (k, v) (Mongoose.toJSON d) /\ k <> "filePath") /\
  (Ytdl.get_downloads
     (Fixtures.lib_env (Lib.Finished 0) "x" false true false false)
     Fixtures2.w2 = error_reply 500 "Database error"
   /\ PlayDl.get_downloads
        (Fixtures.lib_env (Lib.Finished 0) "x" false true false false)
        Fixtures2.w2 = Escaped).
Proof.
  split.
  - apply (proj1 (downloads_projection Fixtures2.quiet Fixtures2.w2)).
    reflexivity.
  - apply (proj2 (downloads_projection
                    (Fixtures.lib_env (Lib.Finished 0) "x" false true false
                       false) Fixtures2.w2)).
    reflexivity.
Defined.

(** ** Titles and file names *)

Lemma append_nil_r (s : string) : s ++ "" = s.
Proof. induction s as [|a s IH]; [reflexivity|]. by rewrite append_cons, IH. Qed.

Lemma rev_app_app (s acc : string) :
  String.rev_app s acc = String.rev_app s "" ++ acc.
Proof.
  revert acc. induction s as [|a s IH]; intros acc; simpl; [reflexivity|].
  rewrite (IH (String a acc)), (IH (String a "")), append_assoc.
  reflexivity.
Qed.

Lemma rev_app_rev_app (s a b : string) :
  String.rev_app (String.rev_app s a) b = String.rev_app a (s ++ b).
Proof.
  revert a. induction s as [|c s IH]; intros a; simpl; [reflexivity|].
  rewrite IH. reflexivity.
Qed.

Lemma rev_rev (s : string) : String.rev (String.rev s) = s.
Proof.
  unfold String.rev. rewrite rev_app_rev_app. simpl. apply append_nil_r.
Qed.

Lemma rev_cons (c : ascii) (s : string) :
  String.rev (String c s) = String.rev s ++ String c "".
Proof. unfold String.rev. simpl. apply rev_app_app. Qed.

Lemma all_chars_rev_app (f : ascii -> bool) (s acc : string) :
  all_chars f (String.rev_app s acc) = all_chars f s && all_chars f acc.
Proof.
  revert acc. induction s as [|a s IH]; intros acc; simpl; [reflexivity|].
  rewrite IH. simpl. destruct (f a), (all_chars f s); reflexivity.
Qed.

Lemma all_chars_keep (f : ascii -> bool) (s : string) :
  all_chars f (Lib.keep f s) = true.
Proof.
  induction s as [|a s IH]; simpl; [reflexivity|].
  destruct (f a) eqn:E; simpl; [by rewrite E|exact IH].
Qed.

Lemma all_chars_trimStart (f : ascii -> bool) (s : string) :
  all_chars f s = true -> all_chars f (Lib.trimStart s) = true.
Proof.
  induction s as [|a s IH]; simpl; [done|].
  intros Hs. destruct (Lib.is_space a); [|exact Hs].
  apply andb_prop in Hs as [_ Hs]. by apply IH.
Qed.

Lemma all_chars_trim (f : ascii -> bool) (s : string) :
  all_chars f s = true -> all_chars f (Lib.trim s) = true.
Proof.
  intros Hs. unfold Lib.trim, String.rev.
  rewrite all_chars_rev_app, andb_true_r.
  apply all_chars_trimStart.
  rewrite all_chars_rev_app, andb_true_r.
  by apply all_chars_trimStart.
Qed.

Lemma space_first_trimStart (s : string) : space_first (Lib.trimStart s) = false.
Proof.
  induction s as [|a s IH]; simpl; [reflexivity|].
  destruct (Lib.is_space a) eqn:E; [exact IH|]. simpl. exact E.
Qed.

Lemma space_first_app (s t : string) :
  s <> "" -> space_first (s ++ t) = space_first s.
Proof. destruct s; [done|reflexivity]. Qed.

Lemma rev_nonempty (s : string) : s <> "" -> String.rev s <> "".
Proof.
  intros Hs Hr. apply Hs. rewrite <- (rev_rev s), Hr. reflexivity.
Qed.

(** Trimming the front keeps the last character. *)
Lemma space_last_trimStart (s : string) :
  space_first (String.rev s) = false ->
  space_first (String.rev (Lib.trimStart s)) = false.
Proof.
  induction s as [|c r IH]; [done|].
  intros Hlast. simpl. destruct (Lib.is_space c) eqn:E; [|exact Hlast].
  apply IH. rewrite rev_cons in Hlast.
  destruct r as [|c' r'].
  - simpl in Hlast. congruence.
  - rewrite space_first_app in Hlast; [exact Hlast|].
    by apply rev_nonempty.
Qed.

Lemma trim_no_outer_space (s : string) :
  space_first (Lib.trim s) = false
  /\ space_first (String.rev (Lib.trim s)) = false.
Proof.
  unfold Lib.trim. split.
  - apply space_last_trimStart. rewrite rev_rev. apply space_first_trimStart.
  - rewrite rev_rev. apply space_first_trimStart.
Qed.

(** X3.  The title filter of part_000 (line 75) and part_001 (line 292),
    [replace(/[^\w\s-]/g, '').trim()], returns a text made of word
    characters, white space and hyphens only, which neither begins nor
    ends with white space. *)
Theorem sanitize_shape (t : string) :
  all_chars title_char (Lib.sanitize t) = true
  /\ space_first (Lib.sanitize t) = false
  /\ space_first (String.rev (Lib.sanitize t)) = false.
Proof.
  unfold Lib.sanitize. split.
  - apply all_chars_trim. apply (all_chars_keep title_char).
  - apply trim_no_outer_space.
Qed.

Lemma all_chars_occurs (f : ascii -> bool) (c : ascii) (s : string) :
  all_chars f s = true -> f c = false -> occurs c s = false.
Proof.
  intros Hs Hc. induction s as [|a s IH]; [reflexivity|].
  simpl in *. apply andb_prop in Hs as [Ha Hs].
  rewrite (IH Hs), orb_false_r. apply Ascii.eqb_neq. congruence.
Qed.

Lemma title_shape (vd : Lib.Details) :
  Lib.title vd <> "" /\ all_chars title_char (Lib.title vd) = true.
Proof.
  unfold Lib.title, Js.str_or.
  destruct (Js.str_truthy (Lib.sanitize (Lib.rawTitle vd))) eqn:E.
  - split; [|apply sanitize_shape]. intros Heq. by rewrite Heq in E.
  - split; [discriminate|reflexivity].
Qed.

Lemma fileName_no (c : ascii) (title : string) (now : Z) (type : option string) :
  title_char c = false -> c <> "."%char ->
  all_chars title_char title = true ->
  occurs c (Lib.fileName title now type) = false.
Proof.
  intros Hc Hdot Ht. unfold Lib.fileName.
  rewrite !occurs_app, (all_chars_occurs _ _ _ Ht Hc).
  assert (Hpretty : occurs c (pretty now) = false).
  { apply pretty_Z_occurs.
    - intros ->. discriminate.
    - intros d Hd. subst c. unfold pretty_N_char in Hc.
      repeat case_match; discriminate. }
  rewrite Hpretty.
  assert (Hext : occurs c (Lib.ext_of type) = false).
  { apply (all_chars_occurs title_char); [|exact Hc].
    unfold Lib.ext_of. by destruct (is_audio type). }
  rewrite Hext.
  change (occurs c "_") with (Ascii.eqb "_" c || false).
  change (occurs c ".") with (Ascii.eqb "." c || false).
  assert (Hu : Ascii.eqb "_" c = false).
  { apply Ascii.eqb_neq. intros <-. discriminate. }
  assert (Hd : Ascii.eqb "." c = false) by (apply Ascii.eqb_neq; congruence).
  by rewrite Hu, Hd.
Qed.

Lemma fileName_shape (title : string) (now : Z) (type : option string) :
  all_chars title_char title = true ->
  occurs "/" (Lib.fileName title now type) = false
  /\ occurs backslash (Lib.fileName title now type) = false
  /\ exists base : string,
       base <> "" /\ occurs "." base = false
       /\ Lib.fileName title now type = base ++ "." ++ Lib.ext_of type.
Proof.
  intros Ht. split; [by apply fileName_no|].
  split; [apply fileName_no; [reflexivity|discriminate|exact Ht]|].
  exists (title ++ "_" ++ pretty now). split; [|split].
  - destruct title; discriminate.
  - rewrite !occurs_app, (all_chars_occurs title_char "." title Ht eq_refl).
    rewrite (pretty_Z_occurs "." now); [reflexivity|discriminate|].
    apply digit_not_dot.
  - unfold Lib.fileName. by rewrite !append_assoc.
Qed.

(** X4.  The destination file name is a single path component: it
    holds no slash and no backslash, and its only dot is the one before
    the extension, after a non-empty base; so the destination is a direct
    entry of the download directory.  This holds for the sanitized titles
    of part_000 and part_001, whatever the downloader reported as title,
    and for src/app.js; in part_000 the title in the name is never
    empty. *)
Theorem destination_is_one_component :
  (forall (vd : Lib.Details) (now : Z) (type : option string),
     Lib.title vd <> ""
     /\ occurs "/" (Lib.fileName (Lib.title vd) now type) = false
     /\ occurs backslash (Lib.fileName (Lib.title vd) now type) = false
     /\ exists base : string,
          base <> "" /\ occurs "." base = false
          /\ Lib.fileName (Lib.title vd) now type
             = base ++ "." ++ Lib.ext_of type) /\
  (forall (rawTitle : string) (now : Z) (type : option string),
     occurs "/" (Lib.fileName (Lib.sanitize rawTitle) now type) = false
     /\ occurs backslash (Lib.fileName (Lib.sanitize rawTitle) now type) = false
     /\ exists base : string,
          base <> "" /\ occurs "." base = false
          /\ Lib.fileName (Lib.sanitize rawTitle) now type
             = base ++ "." ++ Lib.ext_of type) /\
  (forall (e : AppJs.Env) (type : option string),
     occurs "/" (AppJs.filename e type) = false
     /\ occurs backslash (AppJs.filename e type) = false
     /\ exists base : string,
          base <> "" /\ occurs "." base = false
          /\ AppJs.filename e type = base ++ "." ++ Lib.ext_of type).
Proof.
  split; [|split].
  - intros vd now type. destruct (title_shape vd) as [Hne Hall].
    split; [exact Hne|]. by apply fileName_shape.
  - intros rawTitle now type. apply fileName_shape, sanitize_shape.
  - intros e type. rewrite filename_is_fileName. by apply fileName_shape.
Qed.

Example hostile_title :
  Lib.fileName
    (Lib.title (Lib.mkDetails (Some "../../etc/passwd") Js.VUndefined
                  Js.VUndefined None None))
    1700000000000 (Some "video")
  = "etcpasswd_1700000000000.mp4".
Proof. vm_compute. reflexivity. Qed.

(** ** POST /download and the collection *)

Ltac stored_or_not :=
  repeat case_match; simplify_eq/=;
  try (right; split; [discriminate|reflexivity]);
  left; (split; [reflexivity|]);
  match goal with
  | H : Mongoose.save _ _ ?d _ = Some _ |- _ =>
      apply save_Some in H as (_ & _ & ? & ->); exists d; by split
  end.

Lemma app_post_collection (cfg : Config) (e : AppJs.Env)
    (url type : option string) (w : World) :
  let run := AppJs.post_download cfg e url type w in
  (status_of (fst (fst run)) = Some 200
   /\ exists d, db w !! AppJs.new_id e = None
                /\ db (snd (fst run)) = <[AppJs.new_id e := d]> (db w))
  \/ (status_of (fst (fst run)) <> Some 200 /\ db (snd (fst run)) = db w).
Proof. unfold AppJs.post_download. stored_or_not. Qed.

Lemma playdl_post_collection (rt : Js.runtime) (cfg : Config) (e : Lib.Env)
    (url type : option string) (w : World) :
  let run := PlayDl.post_download rt cfg e url type w in
  (status_of (fst run) = Some 200
   /\ exists d, db w !! Lib.new_id e = None
                /\ db (snd run) = <[Lib.new_id e := d]> (db w))
  \/ (status_of (fst run) <> Some 200 /\ db (snd run) = db w).
Proof. unfold PlayDl.post_download. stored_or_not. Qed.

Lemma ytdl_post_collection (rt : Js.runtime) (cfg : Config) (e : Lib.Env)
    (url type : option string) (w : World) :
  let run := Ytdl.post_download rt cfg e url type w in
  (status_of (fst run) = Some 200
   /\ exists d, db w !! Lib.new_id e = None
                /\ db (snd run) = <[Lib.new_id e := d]> (db w))
  \/ (status_of (fst run) <> Some 200 /\ db (snd run) = db w).
Proof. unfold Ytdl.post_download. stored_or_not. Qed.

Lemma hist_post_collection (rt : Js.runtime) (cfg : Config) (e : Lib.Env)
    (url type : option string) (w : World) :
  let run := Hist.post_download rt cfg e url type w in
  (status_of (fst run) = Some 200
   /\ exists d, db w !! Lib.new_id e = None
                /\ db (snd run) = <[Lib.new_id e := d]> (db w))
  \/ (status_of (fst run) <> Some 200 /\ db (snd run) = db w).
Proof. unfold Hist.post_download. stored_or_not. Qed.

(** X5.  POST /download, in each of the four snapshots, adds at most one
    record, only together with a 200 reply and only under an [_id] that
    was free; with any other outcome the collection is what it was.  So
    no POST changes or removes a record that is already stored. *)
Theorem post_adds_at_most_one_record :
  (forall (cfg : Config) (e : AppJs.Env) (url type : option string) (w : World),
     let run := AppJs.post_download cfg e url type w in
     stores_at_most (fst (fst run)) (AppJs.new_id e) (db w) (db (snd (fst run)))
     /\ db w ⊆ db (snd (fst run))) /\
  (forall (rt : Js.runtime) (cfg : Config) (e : Lib.Env)
          (url type : option string) (w : World),
     let run := PlayDl.post_download rt cfg e url type w in
     stores_at_most (fst run) (Lib.new_id e) (db w) (db (snd run))
     /\ db w ⊆ db (snd run)) /\
  (forall (rt : Js.runtime) (cfg : Config) (e : Lib.Env)
          (url type : option string) (w : World),
     let run := Ytdl.post_download rt cfg e url type w in
     stores_at_most (fst run) (Lib.new_id e) (db w) (db (snd run))
     /\ db w ⊆ db (snd run)) /\
  (forall (rt : Js.runtime) (cfg : Config) (e : Lib.Env)
          (url type : option string) (w : World),
     let run := Hist.post_download rt cfg e url type w in
     stores_at_most (fst run) (Lib.new_id e) (db w) (db (snd run))
     /\ db w ⊆ db (snd run)).
Proof.
  assert (Hsub : forall o id (before after : gmap string Mongoose.Download),
             stores_at_most o id before after -> before ⊆ after).
  { intros o id before after [(_ & d & Hfree & ->)|[_ ->]]; [|done].
    by apply insert_subseteq. }
  split; [|split; [|split]]; intros; subst run; split;
    try (eapply Hsub);
    first [ apply app_post_collection | apply playdl_post_collection
          | apply ytdl_post_collection | apply hist_post_collection ].
Qed.

(** ** An invariant of the collection *)

Lemma kind_of_text (type : option string) (k : string) :
  k <> "" -> k <> "undefined" ->
  text type = k \/ Lib.stored type = k -> type = Some k.
Proof. intros H1 H2. destruct type; simpl; intros [H|H]; congruence. Qed.

Lemma record_ok_built (cfg : Config) (id raw u ft t : string) (now date : Z)
    (type : option string) (size : N) (dur th : Mongoose.path_value) :
  ft = text type \/ ft = Lib.stored type ->
  Mongoose.in_enum ft = true ->
  record_ok cfg id
    (Mongoose.mkDownload id raw u (Lib.fileName t now type) ft date
       (Lib.filePath cfg t now type) size dur th).
Proof.
  intros Hft Henum. unfold record_ok. simpl.
  split; [reflexivity|]. split; [exact Henum|].
  destruct (fileName_ends t now type) as [Ha Hv].
  split; [|split; [|reflexivity]]; intros ->.
  - apply Ha, (kind_of_text type "audio"); [done|done|].
    destruct Hft as [<-|<-]; auto.
  - apply Hv, (kind_of_text type "video"); [done|done|].
    destruct Hft as [<-|<-]; auto.
Qed.

Lemma valid_required_enum (d : Mongoose.Download) :
  Mongoose.valid_required d = true ->
  Mongoose.in_enum (Mongoose.fileType d) = true.
Proof.
  unfold Mongoose.valid_required. intros H.
  repeat (apply andb_prop in H as [H ?]). assumption.
Qed.

Lemma collection_ok_insert (cfg : Config) (db : gmap string Mongoose.Download)
    (d : Mongoose.Download) :
  collection_ok cfg db -> record_ok cfg (Mongoose._id d) d ->
  collection_ok cfg (<[Mongoose._id d := d]> db).
Proof.
  intros Hdb Hd id d' Hl. rewrite lookup_insert in Hl.
  case_decide; simplify_eq; [exact Hd|by apply Hdb].
Qed.

Ltac keeps_collection_ok valid_enum :=
  intros Hok; repeat case_match; simplify_eq/=; try exact Hok;
  match goal with
  | H : Mongoose.save _ _ ?d _ = Some _ |- _ =>
      apply save_Some in H as (Hvalid & _ & _ & ->);
      apply (collection_ok_insert _ _ d Hok);
      apply record_ok_built; [auto|exact (valid_enum _ Hvalid)]
  end.

Lemma app_post_keeps_ok (cfg : Config) (e : AppJs.Env)
    (url type : option string) (w : World) :
  collection_ok cfg (db w) ->
  collection_ok cfg (db (snd (fst (AppJs.post_download cfg e url type w)))).
Proof.
  unfold AppJs.post_download.
  intros Hok; repeat case_match; simplify_eq/=; try exact Hok.
  match goal with
  | H : Mongoose.save _ _ ?d _ = Some _ |- _ =>
      apply save_Some in H as (Hvalid & _ & _ & ->);
      apply (collection_ok_insert _ _ d Hok)
  end.
  apply (record_ok_built cfg (AppJs.new_id e) _ _ _ "video" (AppJs.now e));
    [auto|exact Hvalid].
Qed.

Lemma playdl_post_keeps_ok (rt : Js.runtime) (cfg : Config) (e : Lib.Env)
    (url type : option string) (w : World) :
  collection_ok cfg (db w) ->
  collection_ok cfg (db (snd (PlayDl.post_download rt cfg e url type w))).
Proof. unfold PlayDl.post_download. keeps_collection_ok valid_required_enum. Qed.

Lemma ytdl_post_keeps_ok (rt : Js.runtime) (cfg : Config) (e : Lib.Env)
    (url type : option string) (w : World) :
  collection_ok cfg (db w) ->
  collection_ok cfg (db (snd (Ytdl.post_download rt cfg e url type w))).
Proof. unfold Ytdl.post_download. keeps_collection_ok valid_required_enum. Qed.

Lemma hist_post_keeps_ok (rt : Js.runtime) (cfg : Config) (e : Lib.Env)
    (url type : option string) (w : World) :
  collection_ok cfg (db w) ->
  collection_ok cfg (db (snd (Hist.post_download rt cfg e url type w))).
Proof. unfold Hist.post_download. keeps_collection_ok valid_required_enum. Qed.

Lemma delete_keeps_ok (cfg : Config) (caught : outcome) (e : Lib.Env)
    (id : string) (w : World) :
  collection_ok cfg (db w) ->
  collection_ok cfg (db (snd (Lib.delete_download caught e id w))).
Proof.
  intros Hok. unfold Lib.delete_download, Mongoose.findById,
    Mongoose.findByIdAndDelete.
  repeat case_match; simplify_eq/=; try exact Hok.
  intros id' d' Hl. rewrite lookup_delete in Hl.
  case_decide; [done|by apply Hok].
Qed.

(** X6.  Every handler that writes keeps the collection well formed:
    if each stored record is filed under its own [_id], has a
    [fileType] of the enum, a [fileName] with the extension of that kind
    ([.mp3] for audio, [.mp4] for video) and the [filePath] of that name
    in the download directory, then the same holds after POST /download
    of any of the four snapshots and after DELETE /download/:id, whatever
    the collaborators answer. *)
Theorem handlers_keep_collection_ok (cfg : Config) (w : World) :
  collection_ok cfg (db w) ->
  (forall (e : AppJs.Env) (url type : option string),
     collection_ok cfg
       (db (snd (fst (AppJs.post_download cfg e url type w))))) /\
  (forall (rt : Js.runtime) (e : Lib.Env) (url type : option string),
     collection_ok cfg (db (snd (PlayDl.post_download rt cfg e url type w)))
     /\ collection_ok cfg (db (snd (Ytdl.post_download rt cfg e url type w)))
     /\ collection_ok cfg (db (snd (Hist.post_download rt cfg e url type w)))) /\
  (forall (e : Lib.Env) (id : string),
     collection_ok cfg (db (snd (PlayDl.delete_download e id w)))
     /\ collection_ok cfg (db (snd (Ytdl.delete_download e id w)))
     /\ collection_ok cfg (db (snd (Hist.delete_download e id w)))).
Proof.
  intros Hok. split; [|split].
  - intros. by apply app_post_keeps_ok.
  - intros. split; [|split].
    + by apply playdl_post_keeps_ok.
    + by apply ytdl_post_keeps_ok.
    + by apply hist_post_keeps_ok.
  - intros. split; [|split]; by apply delete_keeps_ok.
Qed.

Lemma handlers_keep_collection_ok_witness :
  collection_ok Fixtures.cfg0 (db Fixtures2.w2)
  /\ collection_ok Fixtures.cfg0
       (db (snd (PlayDl.post_download Fixtures.rt0 Fixtures.cfg0
                   (Fixtures.lib_env (Lib.Finished 1024) "77aa88bb99" false
                      false false false)
                   Fixtures.song_url (Some "audio") Fixtures2.w2)))
  /\ collection_ok Fixtures.cfg0
       (db (snd (Ytdl.delete_download Fixtures2.quiet "65f0c0ffee"
                   Fixtures2.w2))).
Proof.
  assert (Hok : collection_ok Fixtures.cfg0 (db Fixtures2.w2)).
  { intros id d Hl. unfold Fixtures2.w2 in Hl. simpl in Hl.
    apply lookup_insert_Some in Hl as [[<- <-]|[_ Hl]].
    - repeat split; try discriminate. intros _. by exists "Test Song_1700000000000".
    - apply lookup_singleton_Some in Hl as [<- <-].
      repeat split; try discriminate. intros _. by exists "Old Tune_1600000000000". }
  split; [exact Hok|].
  destruct (handlers_keep_collection_ok Fixtures.cfg0 Fixtures2.w2 Hok)
    as (_ & Hpost & Hdel).
  split.
  - apply (Hpost Fixtures.rt0).
  - apply (Hdel Fixtures2.quiet "65f0c0ffee").
Defined.

(** ** POST /download and the download directory *)

Lemma written_fs_other (fs : gmap string N) (fp p : string) (t : Lib.Transfer) :
  p <> fp -> Lib.written_fs fs fp t !! p = fs !! p.
Proof.
  intros Hne. unfold Lib.written_fs.
  repeat case_match; try reflexivity; by rewrite lookup_insert_ne.
Qed.

Lemma unlink_if_exists_other (denied : bool) (fs fs' : gmap string N)
    (fp p : string) :
  Lib.unlink_if_exists denied fs fp = Some fs' -> p <> fp ->
  fs' !! p = fs !! p.
Proof.
  unfold Lib.unlink_if_exists, Fs.unlinkSync.
  repeat case_match; intros [= <-] Hne; try reflexivity.
  by rewrite lookup_delete_ne.
Qed.

Lemma unlink_quietly_other (denied : bool) (fs : gmap string N) (fp p : string) :
  p <> fp -> Lib.unlink_quietly denied fs fp !! p = fs !! p.
Proof.
  intros Hne. unfold Lib.unlink_quietly.
  destruct (Lib.unlink_if_exists denied fs fp) eqn:E; [|reflexivity].
  by apply (unlink_if_exists_other _ _ _ _ _ E).
Qed.

Lemma opened_fs_other (fs : gmap string N) (fp p : string) :
  p <> fp -> Lib.opened_fs fs fp !! p = fs !! p.
Proof. intros Hne. unfold Lib.opened_fs. by rewrite lookup_insert_ne. Qed.

Lemma settled_fs_other (fs : gmap string N) (fp p : string) (t : Lib.Transfer) :
  p <> fp -> Lib.settled_fs fs fp t !! p = fs !! p.
Proof.
  intros Hne. unfold Lib.settled_fs.
  repeat case_match; try reflexivity; by apply opened_fs_other.
Qed.

Ltac other_paths H :=
  repeat (first [case_match | progress simplify_eq/=]); try reflexivity;
  rewrite ?settled_fs_other by (eapply H; eauto);
  rewrite ?opened_fs_other by (eapply H; eauto);
  repeat match goal with
  | E : Lib.unlink_if_exists _ _ _ = Some _ |- _ =>
      rewrite (unlink_if_exists_other _ _ _ _ _ E) by (eapply H; eauto);
      clear E
  end;
  rewrite ?unlink_quietly_other by (eapply H; eauto);
  rewrite ?written_fs_other by (eapply H; eauto);
  rewrite ?lookup_insert_ne by (apply not_eq_sym; eapply H; eauto);
  reflexivity.

(** X7.  POST /download of the stream-based snapshots changes the
    download directory at the destination path at most: every other path
    holds after the request what it held before, whether the download
    finished, failed, or never started. *)
Theorem stream_post_touches_destination_only (rt : Js.runtime) (cfg : Config)
    (e : Lib.Env) (url type : option string) (w : World) (p : string) :
  (forall vd, Lib.video_info e = inr vd ->
     p <> Lib.filePath cfg (Lib.title vd) (Lib.now e) type) ->
  (forall info t, Lib.video_info e = inr info -> Lib.vd_title info = Some t ->
     p <> Lib.filePath cfg (Lib.sanitize t) (Lib.now e) type) ->
  fs (snd (PlayDl.post_download rt cfg e url type w)) !! p = fs w !! p
  /\ fs (snd (Hist.post_download rt cfg e url type w)) !! p = fs w !! p
  /\ fs (snd (Ytdl.post_download rt cfg e url type w)) !! p = fs w !! p.
Proof.
  intros Hplay Hytdl. split; [|split].
  - unfold PlayDl.post_download. other_paths Hplay.
  - unfold Hist.post_download. other_paths Hplay.
  - unfold Ytdl.post_download. other_paths Hytdl.
Qed.

Lemma stream_post_touches_destination_only_witness :
  let e := Fixtures.lib_env (Lib.WriteError (Some 10%N) "ENOSPC") "9f9f9f9f9f"
             false false false false in
  fs (snd (PlayDl.post_download Fixtures.rt0 Fixtures.cfg0 e Fixtures.song_url
             (Some "video") Fixtures2.w2)) !! Fixtures2.older_path
  = Some 4096%N
  /\ fs (snd (Hist.post_download Fixtures.rt0 Fixtures.cfg0 e Fixtures.song_url
                (Some "video") Fixtures2.w2)) !! Fixtures2.older_path
     = Some 4096%N
  /\ fs (snd (Ytdl.post_download Fixtures.rt0 Fixtures.cfg0 e Fixtures.song_url
                (Some "video") Fixtures2.w2)) !! Fixtures2.older_path
     = Some 4096%N.
Proof.
  intros e.
  apply (stream_post_touches_destination_only Fixtures.rt0 Fixtures.cfg0 e
           Fixtures.song_url (Some "video") Fixtures2.w2 Fixtures2.older_path).
  - intros vd [= <-]. vm_compute. discriminate.
  - intros info t [= <-] [= <-]. vm_compute. discriminate.
Defined.

(** ** Requests in sequence *)

Lemma length_find_sorted (db : gmap string Mongoose.Download) :
  length (Mongoose.find_sorted db) = size db.
Proof.
  rewrite (Permutation_length (find_sorted_perm db)).
  by rewrite length_fmap, length_map_to_list.
Qed.

Lemma listing_items (caught : outcome) (e : Lib.Env) (w : World) :
  Lib.find_refused e = false ->
  items_of (Lib.get_downloads caught e w)
  = (fun d => JObj (Mongoose.select_minus "filePath" (Mongoose.toJSON d)))
      <$> Mongoose.find_sorted (db w).
Proof. intros Hf. unfold Lib.get_downloads. by rewrite Hf. Qed.

Lemma listing_after_insert (caught : outcome) (e : Lib.Env) (fs1 fs2 : gmap string N)
    (db : gmap string Mongoose.Download) (id : string) (d : Mongoose.Download) :
  Lib.find_refused e = false -> db !! id = None ->
  In (JObj (Mongoose.select_minus "filePath" (Mongoose.toJSON d)))
    (items_of (Lib.get_downloads caught e (mkWorld fs2 (<[id := d]> db))))
  /\ length (items_of (Lib.get_downloads caught e (mkWorld fs2 (<[id := d]> db))))
     = S (length (items_of (Lib.get_downloads caught e (mkWorld fs1 db)))).
Proof.
  intros Hf Hfree. rewrite !listing_items by done. simpl. split.
  - apply list_elem_of_In, list_elem_of_fmap. exists d. split; [done|].
    apply find_sorted_elem. exists id. apply lookup_insert_eq.
  - rewrite !length_fmap, !length_find_sorted.
    by apply map_size_insert_None.
Qed.

(** X8.  In part_000, after a POST /download answered with 200 the reply
    names the stored record's [fileName] and [title]; GET /download/:id
    with the new [_id] returns that record, GET /downloads lists it
    (without [filePath]) and has exactly one item more than before, and
    the record's [filePath] holds a file of the recorded size. *)
Theorem submit_then_read (rt : Js.runtime) (cfg : Config) (e e' : Lib.Env)
    (url type : option string) (w : World) :
  status_of (fst (PlayDl.post_download rt cfg e url type w)) = Some 200 ->
  Lib.find_refused e' = false ->
  let after := snd (PlayDl.post_download rt cfg e url type w) in
  exists d : Mongoose.Download,
    fst (PlayDl.post_download rt cfg e url type w)
    = Replied (mkResponse 200
        (JObj [("success", JBool true);
               ("message", JStr (text type ++ " downloaded successfully"));
               ("fileName", JStr (Mongoose.fileName d));
               ("title", JStr (Mongoose.title d))]))
    /\ PlayDl.get_download e' (Lib.new_id e) after
       = Replied (mkResponse 200 (JObj (Mongoose.toJSON d)))
    /\ In (JObj (Mongoose.select_minus "filePath" (Mongoose.toJSON d)))
         (items_of (PlayDl.get_downloads e' after))
    /\ length (items_of (PlayDl.get_downloads e' after))
       = S (length (items_of (PlayDl.get_downloads e' w)))
    /\ fs after !! Mongoose.filePath d = Some (Mongoose.fileSize d).
Proof.
  intros H200 Hf after. subst after. revert H200.
  unfold PlayDl.post_download, PlayDl.get_download, PlayDl.get_downloads.
  repeat case_match; simplify_eq/=; try discriminate; intros _.
  all: match goal with
       | H : Mongoose.save _ _ ?d _ = Some _ |- _ =>
           apply save_Some in H as (_ & _ & Hfree & ->); exists d
       end.
  all: split; [reflexivity|].
  all: split; [unfold Lib.get_download, Mongoose.findById; rewrite Hf; simpl;
               by rewrite lookup_insert_eq|].
  all: destruct w as [fs0 db0]; simpl in *.
  all: match goal with
       | |- In (JObj (_ (Mongoose.toJSON ?dd)))
               (items_of (Lib.get_downloads _ _ (mkWorld ?f _))) /\ _ =>
           destruct (listing_after_insert Escaped e' fs0 f db0 _ dd Hf Hfree)
             as [Hin Hlen]
       end.
  all: split; [exact Hin|]. all: split; [exact Hlen|].
  all: match goal with H : Fs.statSync _ _ = Some _ |- _ => exact H end.
Qed.

Lemma submit_then_read_witness :
  exists d : Mongoose.Download,
    fst (PlayDl.post_download Fixtures.rt0 Fixtures.cfg0 Fixtures2.quiet
           Fixtures.song_url (Some "audio") Fixtures.w0)
    = Replied (mkResponse 200
        (JObj [("success", JBool true);
               ("message", JStr (text (Some "audio") ++ " downloaded successfully"));
               ("fileName", JStr (Mongoose.fileName d));
               ("title", JStr (Mongoose.title d))]))
    /\ PlayDl.get_download Fixtures2.quiet (Lib.new_id Fixtures2.quiet)
         (snd (PlayDl.post_download Fixtures.rt0 Fixtures.cfg0 Fixtures2.quiet
                 Fixtures.song_url (Some "audio") Fixtures.w0))
       = Replied (mkResponse 200 (JObj (Mongoose.toJSON d)))
    /\ In (JObj (Mongoose.select_minus "filePath" (Mongoose.toJSON d)))
         (items_of
            (PlayDl.get_downloads Fixtures2.quiet
               (snd (PlayDl.post_download Fixtures.rt0 Fixtures.cfg0
                       Fixtures2.quiet Fixtures.song_url (Some "audio")
                       Fixtures.w0))))
    /\ length
         (items_of
            (PlayDl.get_downloads Fixtures2.quiet
               (snd (PlayDl.post_download Fixtures.rt0 Fixtures.cfg0
                       Fixtures2.quiet Fixtures.song_url (Some "audio")
                       Fixtures.w0))))
       = S (length (items_of (PlayDl.get_downloads Fixtures2.quiet Fixtures.w0)))
    /\ fs (snd (PlayDl.post_download Fixtures.rt0 Fixtures.cfg0 Fixtures2.quiet
                  Fixtures.song_url (Some "audio") Fixtures.w0))
         !! Mongoose.filePath d = Some (Mongoose.fileSize d).
Proof.
  apply (submit_then_read Fixtures.rt0 Fixtures.cfg0 Fixtures2.quiet
           Fixtures2.quiet Fixtures.song_url (Some "audio") Fixtures.w0);
    reflexivity.
Defined.

(** X9.  In part_000, a POST /download answered with 200 whose
    destination path was free, followed by a DELETE /download/:id of the
    new [_id] during which nothing fails, leaves the download directory
    and the collection exactly as they were before the POST. *)
Theorem submit_then_delete (rt : Js.runtime) (cfg : Config) (e e' : Lib.Env)
    (url type : option string) (w : World) (vd : Lib.Details) :
  status_of (fst (PlayDl.post_download rt cfg e url type w)) = Some 200 ->
  Lib.video_info e = inr vd ->
  fs w !! Lib.filePath cfg (Lib.title vd) (Lib.now e) type = None ->
  Lib.find_refused e' = false -> Lib.unlink_denied e' = false ->
  Lib.delete_refused e' = false ->
  PlayDl.delete_download e' (Lib.new_id e)
    (snd (PlayDl.post_download rt cfg e url type w))
  = (Lib.deleted, w).
Proof.
  intros H200 Hvd Hfree Hf Hu Hr. revert H200.
  unfold PlayDl.post_download, PlayDl.delete_download. rewrite Hvd.
  repeat case_match; simplify_eq/=; try discriminate; intros _.
  all: match goal with
       | H : Mongoose.save _ _ ?d _ = Some _ |- _ =>
           apply save_Some in H as (_ & _ & Hid & ->);
           rewrite (delete_download_found _ e' _ _ d Hf)
             by (simpl; apply lookup_insert_eq)
       end.
  all: rewrite Hu, Hr, unlink_if_exists_allowed; simpl.
  all: rewrite !delete_insert_id by done.
  all: by destruct w.
Qed.

Lemma submit_then_delete_witness :
  PlayDl.delete_download Fixtures2.quiet (Lib.new_id Fixtures2.quiet)
    (snd (PlayDl.post_download Fixtures.rt0 Fixtures.cfg0 Fixtures2.quiet
            Fixtures.song_url (Some "audio") Fixtures.w0))
  = (Lib.deleted, Fixtures.w0).
Proof.
  apply (submit_then_delete Fixtures.rt0 Fixtures.cfg0 Fixtures2.quiet
           Fixtures2.quiet Fixtures.song_url (Some "audio") Fixtures.w0
           Fixtures.details); reflexivity.
Defined.

(** ** DELETE /download/:id and the rest of the state *)

Lemma delete_frame (caught : outcome) (e : Lib.Env) (id : string) (w : World) :
  touches_only id w (snd (Lib.delete_download caught e id w)).
Proof.
  unfold touches_only, Lib.delete_download, Mongoose.findById,
    Mongoose.findByIdAndDelete.
  split; [|split].
  - intros id' Hne. repeat case_match; simplify_eq/=; try reflexivity.
    by rewrite lookup_delete_ne.
  - intros p Hp. repeat case_match; simplify_eq/=; try reflexivity;
      match goal with
      | E : Lib.unlink_if_exists _ _ _ = Some _ |- _ =>
          apply (unlink_if_exists_other _ _ _ _ _ E); by apply Hp
      end.
  - intros Hnone. rewrite Hnone. by destruct (Lib.find_refused e).
Qed.

(** X10.  DELETE /download/:id of part_000, part_001 and .history
    touches the record of [id] and the file of that record at most:
    whatever fails, every other record and every other path are after the
    request what they were before, and when no record has that [id]
    nothing changes at all. *)
Theorem delete_touches_target_only (e : Lib.Env) (id : string) (w : World) :
  touches_only id w (snd (PlayDl.delete_download e id w))
  /\ touches_only id w (snd (Ytdl.delete_download e id w))
  /\ touches_only id w (snd (Hist.delete_download e id w)).
Proof. split; [|split]; apply delete_frame. Qed.

(** X11.  In part_001, after a DELETE /download/:id answered with
    success, the record is no longer found (GET /download/:id answers
    404), its file is no longer in the download directory, and GET
    /downloads lists exactly one item less than before. *)
Theorem delete_then_read (e e' : Lib.Env) (id : string) (w : World) :
  fst (Ytdl.delete_download e id w) = Lib.deleted ->
  Lib.find_refused e' = false ->
  let after := snd (Ytdl.delete_download e id w) in
  exists d : Mongoose.Download,
    db w !! id = Some d
    /\ Ytdl.get_download e' id after = Lib.not_found
    /\ fs after !! Mongoose.filePath d = None
    /\ S (length (items_of (Ytdl.get_downloads e' after)))
       = length (items_of (Ytdl.get_downloads e' w)).
Proof.
  intros Hok Hf after. subst after. revert Hok.
  unfold Ytdl.delete_download, Ytdl.get_download, Ytdl.get_downloads.
  unfold Lib.delete_download at 1 2 3 4, Mongoose.findById,
    Mongoose.findByIdAndDelete.
  destruct (Lib.find_refused e); [discriminate|].
  destruct (db w !! id) as [d|] eqn:Hd; [|discriminate].
  destruct (Lib.unlink_if_exists (Lib.unlink_denied e) (fs w)
              (Mongoose.filePath d)) as [fs1|] eqn:Hul; [|discriminate].
  destruct (Lib.delete_refused e); [discriminate|]. intros _. simpl.
  exists d. split; [reflexivity|]. split; [|split].
  - unfold Lib.get_download, Mongoose.findById. rewrite Hf. simpl.
    by rewrite lookup_delete_eq.
  - revert Hul. unfold Lib.unlink_if_exists, Fs.unlinkSync, Fs.existsSync.
    destruct (Lib.unlink_denied e).
    + case_bool_decide as Hex; [discriminate|]. intros [= <-].
      by apply eq_None_not_Some.
    + apply unlink_if_exists_gone.
  - rewrite !listing_items by done. simpl.
    rewrite !length_fmap, !length_find_sorted.
    rewrite map_size_delete_Some by eauto.
    destruct (size (db w)) eqn:Hs; [|reflexivity].
    apply map_size_empty_inv in Hs. rewrite Hs in Hd.
    by rewrite lookup_empty in Hd.
Qed.

Lemma delete_then_read_witness :
  exists d : Mongoose.Download,
    db Fixtures2.w2 !! "65f0c0ffee" = Some d
    /\ Ytdl.get_download Fixtures2.quiet "65f0c0ffee"
         (snd (Ytdl.delete_download Fixtures2.quiet "65f0c0ffee" Fixtures2.w2))
       = Lib.not_found
    /\ fs (snd (Ytdl.delete_download Fixtures2.quiet "65f0c0ffee" Fixtures2.w2))
         !! Mongoose.filePath d = None
    /\ S (length
            (items_of
               (Ytdl.get_downloads Fixtures2.quiet
                  (snd (Ytdl.delete_download Fixtures2.quiet "65f0c0ffee"
                          Fixtures2.w2)))))
       = length (items_of (Ytdl.get_downloads Fixtures2.quiet Fixtures2.w2)).
Proof.
  apply (delete_then_read Fixtures2.quiet Fixtures2.quiet "65f0c0ffee"
           Fixtures2.w2); reflexivity.
Defined.

(** ** Duration labels of part_001 *)

(** X12.  [formatDuration] of part_001 has no fallback for a value that
    is not a number: it then returns [NaN:NaN] (where [secondsToHms]
    returns [0:00]).  On a whole number of seconds from 0 up to 2^53 it
    returns the label [secondsToHms] returns. *)
Theorem formatDuration_label (rt : Js.runtime) (v : Js.value) :
  (Js.Number rt v = Js.NaN ->
   Js.formatDuration rt v = "NaN:NaN" /\ Js.secondsToHms rt v = "0:00") /\
  (forall n : Z,
     Js.Number rt v = Js.Fin (inject_Z n) -> (0 <= n < 2 ^ 53)%Z ->
     Js.formatDuration rt v = Js.secondsToHms rt v).
Proof.
  split.
  - intros Hv. unfold Js.formatDuration, Js.secondsToHms. rewrite Hv.
    split; reflexivity.
  - intros n Hv Hn.
    change (Js.formatDuration rt v)
      with (Js.formatDuration rt (Js.VNum (Js.Number rt v))).
    change (Js.secondsToHms rt v)
      with (Js.secondsToHms rt (Js.VNum (Js.Number rt v))).
    rewrite Hv. by apply formatDuration_whole.
Qed.

Lemma formatDuration_label_witness :
  (Js.formatDuration Fixtures.rt0 (Js.VStr "soon") = "NaN:NaN"
   /\ Js.secondsToHms Fixtures.rt0 (Js.VStr "soon") = "0:00")
  /\ Js.formatDuration Fixtures.rt0 (Js.VNum (Js.Fin (inject_Z 3725)))
     = Js.secondsToHms Fixtures.rt0 (Js.VNum (Js.Fin (inject_Z 3725))).
Proof.
  split.
  - apply (proj1 (formatDuration_label Fixtures.rt0 (Js.VStr "soon"))).
    reflexivity.
  - apply (proj2 (formatDuration_label Fixtures.rt0
                    (Js.VNum (Js.Fin (inject_Z 3725)))) 3725%Z);
      [reflexivity|lia].
Defined.

Example formatDuration_3725 :
  Js.formatDuration Fixtures.rt0 (Js.VNum (Js.Fin (inject_Z 3725))) = "1:02:05".
Proof. reflexivity. Qed.

(** ** Edge cases of the stream-based POST handlers *)

(** X13.  POST /download of part_001 never looks at [type] before the
    download: when [type] is absent or is neither [audio] nor [video],
    the media is fetched into an [.mp4] destination, the schema then
    refuses the record, the reply is 500, the file stays on disk and
    nothing is stored. *)
Theorem part001_kind_unchecked (rt : Js.runtime) (cfg : Config) (e : Lib.Env)
    (url type : option string) (w : World) (info : Lib.Details)
    (t : string) (n : N) :
  Lib.url_valid e = true -> Lib.video_info e = inr info ->
  Lib.vd_title info = Some t -> Lib.transfer e = Lib.Finished n ->
  Mongoose.in_enum (Lib.stored type) = false ->
  let destination := Lib.filePath cfg (Lib.sanitize t) (Lib.now e) type in
  Ytdl.post_download rt cfg e url type w
  = (error_reply 500 "Download completed but database save failed",
     mkWorld (<[destination := n]> (fs w)) (db w))
  /\ ends_in ".mp4" destination.
Proof.
  intros Hv Hi Ht Htr Henum destination. subst destination. split.
  - unfold Ytdl.post_download. rewrite Hv, Hi, Ht, Htr.
    cbn -[Mongoose.save Lib.fileName Lib.filePath Lib.sanitize
          Js.formatDuration].
    unfold Fs.statSync. rewrite lookup_insert_eq.
    rewrite save_invalid; [reflexivity|].
    unfold Mongoose.valid_required. simpl. rewrite Henum.
    by rewrite !andb_false_r.
  - assert (Haudio : is_audio type = false).
    { destruct type as [k|]; [|reflexivity]. simpl in *.
      unfold Mongoose.in_enum in Henum.
      by destruct (String.eqb k "audio"). }
    unfold Lib.filePath, Fs.join, Lib.fileName, Lib.ext_of. rewrite Haudio.
    exists (DOWNLOAD_DIR cfg ++ "/" ++ Lib.sanitize t ++ "_" ++ pretty (Lib.now e)).
    by rewrite !append_assoc.
Qed.

Lemma part001_kind_unchecked_witness :
  Ytdl.post_download Fixtures.rt0 Fixtures.cfg0 Fixtures2.quiet
    Fixtures.song_url None Fixtures.w0
  = (error_reply 500 "Download completed but database save failed",
     mkWorld {["/srv/app/downloads/Test Song_1700000000000.mp4" := 1024%N]} ∅)
  /\ ends_in ".mp4" "/srv/app/downloads/Test Song_1700000000000.mp4".
Proof.
  apply (part001_kind_unchecked Fixtures.rt0 Fixtures.cfg0 Fixtures2.quiet
           Fixtures.song_url None Fixtures.w0 Fixtures.details "Test Song"
           1024%N); reflexivity.
Defined.





(** ** How often yt-dlp runs, and which handlers always answer *)

(** X16.  POST /download of src/app.js runs yt-dlp exactly once when
    [url] and [type] are both present and non-empty, and then answers 200
    or 500; otherwise it runs nothing, answers 400 and leaves the state
    as it was. *)
Theorem exec_once_or_never (cfg : Config) (e : AppJs.Env)
    (url type : option string) (w : World) :
  let run := AppJs.post_download cfg e url type w in
  ((url = None \/ url = Some "" \/ type = None \/ type = Some "")
   /\ run = (error_reply 400 "url and type required", w, []))
  \/ ((exists u t, url = Some u /\ type = Some t /\ u <> "" /\ t <> "")
      /\ snd run = [AppJs.cmd cfg e url type]
      /\ (status_of (fst (fst run)) = Some 200
          \/ status_of (fst (fst run)) = Some 500)).
Proof.
  intros run. subst run.
  destruct (missing url) eqn:Hu.
  { left. apply missing_field in Hu. split; [tauto|].
    apply post_download_rejects_missing. left. by apply missing_field. }
  destruct (missing type) eqn:Ht.
  { left. apply missing_field in Ht. split; [tauto|].
    apply post_download_rejects_missing. right. by apply missing_field. }
  right. split.
  { destruct url as [[|a u]|], type as [[|b t]|]; try discriminate.
    eexists _, _. repeat split; discriminate. }
  split; [by apply post_download_runs_once|].
  unfold AppJs.post_download. rewrite Hu, Ht.
  cbn -[Mongoose.save AppJs.cmd AppJs.filepath AppJs.filename
        AppJs.newDownload].
  repeat case_match; simpl; auto.
Qed.

(** X17.  The handlers written inside [try]/[catch] always send a reply:
    POST /download of src/app.js and of .history answers 200, 400 or 500
    whatever the collaborators do, and GET /download/:id and DELETE
    /download/:id of part_001 answer 200, 404 or 500. *)
Theorem guarded_handlers_always_reply :
  (forall (cfg : Config) (e : AppJs.Env) (url type : option string) (w : World),
     let s := status_of (fst (fst (AppJs.post_download cfg e url type w))) in
     s = Some 200 \/ s = Some 400 \/ s = Some 500) /\
  (forall (rt : Js.runtime) (cfg : Config) (e : Lib.Env)
          (url type : option string) (w : World),
     let s := status_of (fst (Hist.post_download rt cfg e url type w)) in
     s = Some 200 \/ s = Some 400 \/ s = Some 500) /\
  (forall (e : Lib.Env) (id : string) (w : World),
     let s := status_of (Ytdl.get_download e id w) in
     s = Some 200 \/ s = Some 404 \/ s = Some 500) /\
  (forall (e : Lib.Env) (id : string) (w : World),
     let s := status_of (fst (Ytdl.delete_download e id w)) in
     s = Some 200 \/ s = Some 404 \/ s = Some 500).
Proof.
  split; [|split; [|split]].
  - intros cfg e url type w s. subst s. unfold AppJs.post_download.
    repeat case_match; simpl; auto.
  - intros rt cfg e url type w s. subst s. unfold Hist.post_download.
    repeat case_match; simpl; auto.
  - intros e id w s. subst s.
    unfold Ytdl.get_download, Lib.get_download, Mongoose.findById.
    repeat case_match; simpl; auto.
  - intros e id w s. subst s.
    unfold Ytdl.delete_download, Lib.delete_download, Mongoose.findById,
      Mongoose.findByIdAndDelete.
    repeat case_match; simpl; auto.
Qed.

Example part000_get_can_go_unanswered :
  PlayDl.get_download
    (Fixtures.lib_env (Lib.Finished 0) "x" false true false false)
    "65f0c0ffee" Fixtures.w1 = Escaped.
Proof. reflexivity. Qed.

(** X18.  In src/app.js, after a POST /download answered with 200 the
    [link] of the reply is the static route [/downloads/] followed by the
    stored record's [fileName]; that name, joined to the download
    directory, is the record's [filePath], where a file of the recorded
    size lies; and GET /downloads-list then shows the record and has
    exactly one item more than before. *)
Theorem app_submit_then_list (cfg : Config) (e e' : AppJs.Env)
    (url type : option string) (w : World) :
  status_of (fst (fst (AppJs.post_download cfg e url type w))) = Some 200 ->
  AppJs.find_refused e' = false ->
  let after := snd (fst (AppJs.post_download cfg e url type w)) in
  exists d : Mongoose.Download,
    db after !! AppJs.new_id e = Some d
    /\ fst (fst (AppJs.post_download cfg e url type w))
       = Replied (mkResponse 200
           (JObj [("message", JStr (text type ++ " downloaded successfully"));
                  ("link",
                   JStr ("http://localhost:" ++ PORT cfg ++ "/downloads/"
                         ++ Mongoose.fileName d))]))
    /\ Mongoose.filePath d = Fs.join (DOWNLOAD_DIR cfg) (Mongoose.fileName d)
    /\ fs after !! Mongoose.filePath d = Some (Mongoose.fileSize d)
    /\ In (JObj (Mongoose.toJSON d))
         (items_of (AppJs.get_downloads_list e' after))
    /\ length (items_of (AppJs.get_downloads_list e' after))
       = S (length (items_of (AppJs.get_downloads_list e' w))).
Proof.
  intros H200 Hf after. subst after. revert H200.
  unfold AppJs.post_download, AppJs.get_downloads_list. rewrite Hf.
  repeat case_match; simplify_eq/=; try discriminate; intros _.
  match goal with
  | H : Mongoose.save _ _ ?d _ = Some _ |- _ =>
      apply save_Some in H as (_ & _ & Hfree & ->); exists d
  end.
  simpl in Hfree.
  split; [apply lookup_insert_eq|]. split; [reflexivity|].
  split; [reflexivity|].
  split; [match goal with H : Fs.statSync _ _ = Some _ |- _ => exact H end|].
  split.
  - apply list_elem_of_In, list_elem_of_fmap. eexists. split; [reflexivity|].
    apply find_sorted_elem. exists (AppJs.new_id e). apply lookup_insert_eq.
  - rewrite !length_fmap, !length_find_sorted.
    by apply map_size_insert_None.
Qed.

Lemma app_submit_then_list_witness :
  let e := Fixtures.app_env (Fixtures.writes Fixtures.mp3_path 1024) "id1" false in
  exists d : Mongoose.Download,
    db (snd (fst (AppJs.post_download Fixtures.cfg0 e Fixtures.song_url
                    (Some "audio") Fixtures2.w2))) !! AppJs.new_id e = Some d
    /\ fst (fst (AppJs.post_download Fixtures.cfg0 e Fixtures.song_url
                   (Some "audio") Fixtures2.w2))
       = Replied (mkResponse 200
           (JObj [("message",
                   JStr (text (Some "audio") ++ " downloaded successfully"));
                  ("link",
                   JStr ("http://localhost:" ++ PORT Fixtures.cfg0
                         ++ "/downloads/" ++ Mongoose.fileName d))]))
    /\ Mongoose.filePath d
       = Fs.join (DOWNLOAD_DIR Fixtures.cfg0) (Mongoose.fileName d)
    /\ fs (snd (fst (AppJs.post_download Fixtures.cfg0 e Fixtures.song_url
                       (Some "audio") Fixtures2.w2)))
         !! Mongoose.filePath d = Some (Mongoose.fileSize d)
    /\ In (JObj (Mongoose.toJSON d))
         (items_of
            (AppJs.get_downloads_list e
               (snd (fst (AppJs.post_download Fixtures.cfg0 e
                            Fixtures.song_url (Some "audio") Fixtures2.w2)))))
    /\ length
         (items_of
            (AppJs.get_downloads_list e
               (snd (fst (AppJs.post_download Fixtures.cfg0 e
                            Fixtures.song_url (Some "audio") Fixtures2.w2)))))
       = S (length (items_of (AppJs.get_downloads_list e Fixtures2.w2))).
Proof.
  intros e.
  apply (app_submit_then_list Fixtures.cfg0 e e Fixtures.song_url
           (Some "audio") Fixtures2.w2); reflexivity.
Defined.

(** ** Labels of whole durations *)

Lemma secondsToHms_whole (rt : Js.runtime) (n : Z) :
  (0 <= n < 2 ^ 53)%Z ->
  Js.secondsToHms rt (Js.VNum (Js.Fin (inject_Z n)))
  = if bool_decide (0 < n / 3600)%Z
    then pretty (n / 3600)%Z ++ ":" ++ two_digits ((n mod 3600) / 60)%Z
           ++ ":" ++ two_digits (n mod 60)%Z
    else pretty ((n mod 3600) / 60)%Z ++ ":" ++ two_digits (n mod 60)%Z.
Proof.
  intros Hn.
  assert (H0 : (0 <= inject_Z n)%Q).
  { change 0%Q with (inject_Z 0). rewrite <- Zle_Qle. lia. }
  rewrite (secondsToHms_fin rt _ (inject_Z n)); rewrite ?Qfloor_Z;
    try lia; try done.
  unfold Js.num_or0, Js.Number, Js.num_truthy.
  destruct (Qeq_bool (inject_Z n) 0) eqn:E; [|reflexivity].
  apply Qeq_bool_eq in E. f_equal.
  apply (proj1 (inject_Z_injective n 0)) in E. by rewrite E.
Qed.

Lemma two_digits_inj (a b : Z) :
  (0 <= a < 60)%Z -> (0 <= b < 60)%Z -> two_digits a = two_digits b -> a = b.
Proof.
  intros Ha Hb Heq.
  assert (Hall : forallb (fun a => forallb (fun b =>
              implb (String.eqb (two_digits a) (two_digits b)) (a =? b)%Z)
              (seqZ 0 60)) (seqZ 0 60) = true) by (vm_compute; reflexivity).
  rewrite forallb_forall in Hall.
  specialize (Hall a). rewrite forallb_forall in Hall.
  assert (Hab : implb (String.eqb (two_digits a) (two_digits b)) (a =? b)%Z = true).
  { apply Hall; apply list_elem_of_In, elem_of_seqZ; lia. }
  rewrite (proj2 (String.eqb_eq _ _) Heq) in Hab. simpl in Hab.
  by apply Z.eqb_eq.
Qed.

Lemma digit_not_colon (d : N) : pretty_N_char d <> ":"%char.
Proof. unfold pretty_N_char. repeat case_match; discriminate. Qed.

Lemma pretty_no_colon (z : Z) : occurs ":" (pretty z) = false.
Proof. apply pretty_Z_occurs; [discriminate|apply digit_not_colon]. Qed.

Lemma two_digits_no_colon (k : Z) : occurs ":" (two_digits k) = false.
Proof. unfold two_digits. by rewrite occurs_app, !pretty_no_colon. Qed.

(** X19.  On whole numbers of seconds from 0 up to 2^53, [secondsToHms]
    gives different labels to different durations. *)
Theorem secondsToHms_distinct_labels (rt : Js.runtime) (n1 n2 : Z) :
  (0 <= n1 < 2 ^ 53)%Z -> (0 <= n2 < 2 ^ 53)%Z ->
  Js.secondsToHms rt (Js.VNum (Js.Fin (inject_Z n1)))
  = Js.secondsToHms rt (Js.VNum (Js.Fin (inject_Z n2))) ->
  n1 = n2.
Proof.
  intros H1 H2. rewrite !secondsToHms_whole by done.
  assert (Hm : forall n, (0 <= n)%Z -> (0 <= n mod 3600 / 60 < 60)%Z).
  { intros n Hn. pose proof (Z.mod_pos_bound n 3600).
    split; [apply Z.div_pos; lia|apply Z.div_lt_upper_bound; lia]. }
  assert (Hs : forall n, (0 <= n mod 60 < 60)%Z).
  { intros n. apply Z.mod_pos_bound. lia. }
  assert (Hre : forall a b c : string,
             a ++ ":" ++ b ++ ":" ++ c = (a ++ ":" ++ b) ++ String ":" c).
  { intros a b c. by rewrite !append_assoc. }
  assert (Hsum : forall n, (0 <= n)%Z ->
             (n = n / 3600 * 3600 + n mod 3600 / 60 * 60 + n mod 60)%Z).
  { intros n Hn. pose proof (Z.div_mod n 3600).
    pose proof (Z.div_mod (n mod 3600) 60). pose proof (Z.div_mod n 60).
    pose proof (Z.mod_pos_bound (n mod 3600) 60).
    pose proof (Z.mod_pos_bound n 3600). pose proof (Hs n). lia. }
  intros Heq.
  assert (Hparts : (n1 / 3600 = n2 / 3600
                    /\ n1 mod 3600 / 60 = n2 mod 3600 / 60
                    /\ n1 mod 60 = n2 mod 60)%Z).
  { repeat case_bool_decide; rewrite ?Hre in Heq;
      apply split_at_last in Heq as [Hpre Hsec];
      try apply two_digits_no_colon;
      apply two_digits_inj in Hsec; try apply Hs.
    - change (pretty (n1 / 3600)%Z ++ String ":" (two_digits (n1 mod 3600 / 60))
              = pretty (n2 / 3600)%Z ++ String ":" (two_digits (n2 mod 3600 / 60)))
        in Hpre.
      apply split_at_last in Hpre as [Hh Hmin];
        try apply two_digits_no_colon.
      apply (inj pretty) in Hh.
      apply two_digits_inj in Hmin; [done|apply Hm; lia..].
    - exfalso.
      assert (Hocc : occurs ":" (pretty (n1 / 3600)%Z ++ ":"
                                 ++ two_digits (n1 mod 3600 / 60)) = true).
      { rewrite !occurs_app. simpl. by rewrite orb_true_r. }
      rewrite Hpre, pretty_no_colon in Hocc. discriminate.
    - exfalso.
      assert (Hocc : occurs ":" (pretty (n2 / 3600)%Z ++ ":"
                                 ++ two_digits (n2 mod 3600 / 60)) = true).
      { rewrite !occurs_app. simpl. by rewrite orb_true_r. }
      rewrite <- Hpre, pretty_no_colon in Hocc. discriminate.
    - apply (inj pretty) in Hpre.
      assert (n1 / 3600 = 0 /\ n2 / 3600 = 0)%Z as [-> ->]; [|done].
      pose proof (Z.div_pos n1 3600). pose proof (Z.div_pos n2 3600). lia. }
  destruct Hparts as (Ha & Hb & Hc).
  rewrite (Hsum n1), (Hsum n2) by lia. by rewrite Ha, Hb, Hc.
Qed.

Lemma secondsToHms_distinct_labels_witness :
  (Js.secondsToHms Fixtures.rt0 (Js.VNum (Js.Fin (inject_Z 3725)))
   = Js.secondsToHms Fixtures.rt0 (Js.VNum (Js.Fin (inject_Z 3725))))
  /\ 3725%Z = 3725%Z.
Proof.
  split; [reflexivity|].
  apply (secondsToHms_distinct_labels Fixtures.rt0 3725 3725);
    [lia|lia|reflexivity].
Defined.

(** ** When a submission succeeds *)

Lemma save_is_Some (refused : bool) (valid : Mongoose.Download -> bool)
    (d : Mongoose.Download) (db : gmap string Mongoose.Download) :
  is_Some (Mongoose.save refused valid d db)
  <-> valid d = true /\ refused = false /\ db !! Mongoose._id d = None.
Proof.
  unfold Mongoose.save.
  destruct (valid d), refused, (db !! Mongoose._id d); simpl;
    split; try (intros [? ?]; done); try (intros (? & ? & ?); done);
    intros _; eauto.
Qed.

(** X20.  POST /download of src/app.js answers 200 exactly when [url]
    and [type] are present and non-empty, yt-dlp exits without error, the
    destination file exists afterwards, [type] is [audio] or [video], the
    store accepts the write and the new [_id] is free. *)
Theorem app_success_iff (cfg : Config) (e : AppJs.Env)
    (url type : option string) (w : World) :
  let r := AppJs.ytdlp e (AppJs.cmd cfg e url type) (fs w) in
  status_of (fst (fst (AppJs.post_download cfg e url type w))) = Some 200
  <-> missing url = false /\ missing type = false
      /\ AppJs.exec_error r = false
      /\ is_Some (AppJs.exec_fs r !! AppJs.filepath cfg e type)
      /\ Mongoose.in_enum (text type) = true
      /\ AppJs.save_refused e = false
      /\ db w !! AppJs.new_id e = None.
Proof.
  intros r. subst r. unfold AppJs.post_download.
  destruct (missing url), (missing type); simpl orb; cbv iota;
    try (split; [discriminate|intros (? & ? & _); discriminate]).
  cbn -[Mongoose.save AppJs.cmd AppJs.filepath AppJs.filename
        AppJs.newDownload].
  destruct (AppJs.exec_error _);
    [split; [discriminate|intros (_ & _ & ? & _); discriminate]|].
  unfold Fs.statSync.
  destruct (AppJs.exec_fs _ !! AppJs.filepath cfg e type) as [size|];
    [|split; [discriminate|intros (_ & _ & _ & [? ?] & _); discriminate]].
  pose proof (save_is_Some (AppJs.save_refused e) Mongoose.valid_app
                (AppJs.newDownload cfg e url type size) (db w)) as Hsave.
  destruct (Mongoose.save _ _ _ _) as [db'|]; simpl.
  - split; [|done]. intros _.
    destruct (proj1 Hsave) as (Hv & Hr & Hid); [eauto|].
    repeat split; eauto.
  - split; [discriminate|]. intros (_ & _ & _ & _ & Hv & Hr & Hid).
    destruct (proj2 Hsave) as [? ?]; [|discriminate]. by repeat split.
Qed.

Lemma str_truthy_app (a b : string) :
  Js.str_truthy (a ++ b) = Js.str_truthy a || Js.str_truthy b.
Proof. by destruct a, b. Qed.

Lemma rawTitle_truthy (vd : Lib.Details) : Js.str_truthy (Lib.rawTitle vd) = true.
Proof.
  unfold Lib.rawTitle, Js.str_or.
  destruct (Lib.vd_title vd) as [s|]; [|reflexivity].
  by destruct (Js.str_truthy s) eqn:E.
Qed.

Lemma missing_false_text (o : option string) :
  missing o = false -> Js.str_truthy (text o) = true.
Proof. by destruct o as [[|? ?]|]. Qed.

(** The document of part_000 passes the [required] checks whatever
    play-dl reported: only the kind can fail validation. *)
Lemma playdl_document_valid (cfg : Config) (e : Lib.Env)
    (url type : option string) (vd : Lib.Details) (size : N)
    (dur th : Mongoose.path_value) :
  missing url = false -> missing type = false ->
  Mongoose.valid_required
    (Mongoose.mkDownload (Lib.new_id e) (Lib.rawTitle vd) (text url)
       (Lib.fileName (Lib.title vd) (Lib.now e) type) (text type)
       (Lib.created e) (Lib.filePath cfg (Lib.title vd) (Lib.now e) type)
       size dur th)
  = Mongoose.in_enum (text type).
Proof.
  intros Hu Ht. unfold Mongoose.valid_required. simpl.
  rewrite rawTitle_truthy, (missing_false_text _ Hu), (missing_false_text _ Ht).
  unfold Lib.filePath, Fs.join, Lib.fileName.
  rewrite !str_truthy_app. simpl. rewrite !orb_true_r. simpl.
  by rewrite andb_true_r.
Qed.

(** X21.  POST /download of part_000 answers 200 exactly when [url] and
    [type] are present and non-empty, play-dl returns the video
    information, a media stream opens (at the first or at the second
    attempt), the transfer finishes, [type] is [audio] or [video], the
    store accepts the write and the new [_id] is free.  What play-dl
    reports as title, duration or thumbnail, or leaves out, never makes
    the request fail. *)
Theorem part000_success_iff (rt : Js.runtime) (cfg : Config) (e : Lib.Env)
    (url type : option string) (w : World) :
  status_of (fst (PlayDl.post_download rt cfg e url type w)) = Some 200
  <-> missing url = false /\ missing type = false
      /\ (exists vd, Lib.video_info e = inr vd)
      /\ (Lib.stream e = Lib.Resolves true
          \/ (exists m, Lib.stream e = Lib.Rejects m)
             /\ Lib.stream_from_info e = Lib.Resolves true)
      /\ (exists n, Lib.transfer e = Lib.Finished n)
      /\ Mongoose.in_enum (text type) = true
      /\ Lib.save_refused e = false
      /\ db w !! Lib.new_id e = None.
Proof.
  unfold PlayDl.post_download.
  destruct (missing url) eqn:Hu;
    [split; [discriminate|intros (? & _); discriminate]|].
  destruct (missing type) eqn:Ht;
    [split; [discriminate|intros (_ & ? & _); discriminate]|].
  simpl orb. cbv iota.
  destruct (Lib.video_info e) as [m|vd];
    [split; [discriminate|intros (_ & _ & [? ?] & _); discriminate]|].
  set (answer := match Lib.stream e with
                 | Lib.Rejects _ => Lib.stream_from_info e
                 | a => a
                 end).
  assert (Hanswer : answer = Lib.Resolves true
            <-> (Lib.stream e = Lib.Resolves true
                 \/ (exists m, Lib.stream e = Lib.Rejects m)
                    /\ Lib.stream_from_info e = Lib.Resolves true)).
  { unfold answer. destruct (Lib.stream e) as [m|[|]].
    - split; [intros ->; right; eauto|intros [?|[_ ?]]; done].
    - split; [auto|done].
    - split; [done|intros [?|[[? ?] _]]; done]. }
  cbn -[Mongoose.save Lib.fileName Lib.filePath Lib.title Lib.rawTitle
        Js.secondsToHms answer].
  fold answer.
  destruct answer as [m|[|]];
    try (split; [discriminate
                |intros (_ & _ & _ & Ho & _); apply Hanswer in Ho; discriminate]).
  destruct (Lib.transfer e) as [n|wr m|wr m];
    [|split; [discriminate|intros (_ & _ & _ & _ & [? ?] & _); discriminate]
     |destruct (Lib.unlink_if_exists _ _ _);
        (split; [discriminate|intros (_ & _ & _ & _ & [? ?] & _); discriminate])].
  cbn -[Mongoose.save Lib.fileName Lib.filePath Lib.title Lib.rawTitle
        Js.secondsToHms].
  unfold Fs.statSync. rewrite lookup_insert_eq.
  match goal with
  | |- context [Mongoose.save ?r ?v ?d ?m] =>
      pose proof (save_is_Some r v d m) as Hsave;
      rewrite (playdl_document_valid cfg e url type vd) in Hsave by done;
      destruct (Mongoose.save r v d m) as [db'|]
  end; simpl.
  - split; [|done]. intros _.
    destruct (proj1 Hsave) as (Hv & Hr & Hid); [eauto|].
    repeat split; eauto. by apply Hanswer.
  - split; [discriminate|]. intros (_ & _ & _ & _ & _ & Hv & Hr & Hid).
    destruct (proj2 Hsave) as [? ?]; [|discriminate]. by repeat split.
Qed.

(** ** What a failed submission leaves behind *)




(** X23.  POST /download of part_001 has no fallback for a title that
    is empty: the media is then fetched into a destination whose name
    starts with the underscore, the schema refuses the record for its
    empty [title], the reply is 500 and the file stays on disk. *)
Theorem part001_empty_title (rt : Js.runtime) (cfg : Config) (e : Lib.Env)
    (url type : option string) (w : World) (info : Lib.Details) (n : N) :
  Lib.url_valid e = true -> Lib.video_info e = inr info ->
  Lib.vd_title info = Some "" -> Lib.transfer e = Lib.Finished n ->
  let destination :=
    DOWNLOAD_DIR cfg ++ "/_" ++ pretty (Lib.now e) ++ "." ++ Lib.ext_of type in
  Ytdl.post_download rt cfg e url type w
  = (error_reply 500 "Download completed but database save failed",
     mkWorld (<[destination := n]> (fs w)) (db w)).
Proof.
  intros Hv Hi Ht Htr destination. subst destination.
  unfold Ytdl.post_download. rewrite Hv, Hi, Ht, Htr.
  cbn -[Mongoose.save Lib.fileName Lib.filePath Js.formatDuration].
  unfold Fs.statSync. rewrite lookup_insert_eq.
  rewrite save_invalid; reflexivity.
Qed.

Lemma part001_empty_title_witness :
  let e := Lib.mkEnv 1700000000000 true
             (inr (Lib.mkDetails (Some "") (Js.VStr "213") Js.VUndefined None
                     None))
             (Lib.Resolves true) (Lib.Resolves true) (Lib.Finished 1024) "id1"
             1700000000900 false false false false "" in
  Ytdl.post_download Fixtures.rt0 Fixtures.cfg0 e Fixtures.song_url
    (Some "audio") Fixtures.w0
  = (error_reply 500 "Download completed but database save failed",
     mkWorld {["/srv/app/downloads/_1700000000000.mp3" := 1024%N]} ∅).
Proof.
  intros e.
  apply (part001_empty_title Fixtures.rt0 Fixtures.cfg0 e Fixtures.song_url
           (Some "audio") Fixtures.w0
           (Lib.mkDetails (Some "") (Js.VStr "213") Js.VUndefined None None)
           1024%N); reflexivity.
Defined.
